(** * ChatInterface: intent routing, dispatch and transcript

    A shallow embedding of [multi-agent-gui/src/components/ChatInterface.jsx],
    the chat front end of the multi-agent system: the keyword classifier
    [analyzeIntent], the dispatcher [sendToAgent] (with [uploadFileToAgent]
    and [generateAgentResponse]) and the send handler [handleSendMessage]
    together with the React state it updates.

    Strings.  A JavaScript string is a sequence of UTF-16 code units.  The
    model uses Rocq's [string] and reads each character as one code unit in
    the range U+0000..U+00FF (Basic Latin and Latin-1 Supplement).  On that
    range [String.prototype.toLowerCase] maps unit by unit, [trim] strips
    the seven white-space units listed below, and [includes] is plain
    substring search, so the three are modelled exactly.  Inputs with code
    units above U+00FF are outside the model. *)

From Stdlib Require Import ZArith NArith Ascii String Bool Lia.
From stdpp Require Import base option list strings relations.

Local Open Scope stdpp_scope.
Set Warnings "-register-all".
#[local] Arguments String.append !s1 s2 / : simpl nomatch.

(** ** JavaScript string primitives *)

Module JsString.

(** One code unit of [toLowerCase]: A-Z and the Latin-1 capitals
    U+00C0..U+00DE (without the multiplication sign U+00D7) move up by 32;
    every other unit below U+0100 is its own lower case. *)
Definition toLowerCase_unit (c : ascii) : ascii :=
  let n := N_of_ascii c in
  if ((65 <=? n) && (n <=? 90) ||
      (192 <=? n) && (n <=? 222) && negb (n =? 215))%N
  then ascii_of_N (n + 32)
  else c.

(** [s.toLowerCase()] *)
Fixpoint toLowerCase (s : string) : string :=
  match s with
  | EmptyString => EmptyString
  | String c s' => String (toLowerCase_unit c) (toLowerCase s')
  end.

(** [s.includes(searchString)]: [searchString] starts at some index of [s]. *)
Fixpoint includes (s searchString : string) : bool :=
  String.prefix searchString s ||
  match s with
  | EmptyString => false
  | String _ s' => includes s' searchString
  end.

(** White space and line terminators of ECMAScript below U+0100:
    TAB, LF, VT, FF, CR, SPACE and NO-BREAK SPACE. *)
Definition isWhiteSpace (c : ascii) : bool :=
  let n := N_of_ascii c in
  ((9 <=? n) && (n <=? 13) || (n =? 32) || (n =? 160))%N.

Fixpoint trimStart (s : string) : string :=
  match s with
  | EmptyString => EmptyString
  | String c s' => if isWhiteSpace c then trimStart s' else s
  end.

Fixpoint trimEnd (s : string) : string :=
  match s with
  | EmptyString => EmptyString
  | String c s' =>
      match trimEnd s' with
      | EmptyString => if isWhiteSpace c then EmptyString else String c EmptyString
      | t => String c t
      end
  end.

(** [s.trim()] *)
Definition trim (s : string) : string := trimEnd (trimStart s).

(** ToBoolean on a string: only the empty string is falsy. *)
Definition truthy (s : string) : bool :=
  match s with
  | EmptyString => false
  | String _ _ => true
  end.

(** [a || b] on strings. *)
Definition or_else (a b : string) : string := if truthy a then a else b.

(** Every code unit of [s] is white space. *)
Fixpoint blank (s : string) : bool :=
  match s with
  | EmptyString => true
  | String c s' => isWhiteSpace c && blank s'
  end.

(** [t] occurs in [s] as a contiguous substring. *)
Definition substring_of (t s : string) : Prop :=
  exists a b, s = a +:+ t +:+ b.

(** [kw] occurs in [s] up to letter case: some substring of [s] has the
    same lower-case form as [kw]. *)
Definition occurs_ci (kw s : string) : Prop :=
  exists a t b, s = a +:+ t +:+ b /\ toLowerCase t = toLowerCase kw.

End JsString.
Import JsString.

(** ** Agents *)

(** Keys of [AGENT_CONFIGS]; [analyzeIntent] returns one of them. *)
Inductive AgentId : Type :=
| agent1        (* Web Scraper & Data Collector: the spec's collector *)
| agent2        (* Knowledge Base Creator: knowledge *)
| agent3        (* Database Manager: database *)
| agent4        (* Data Transformer: transformer *)
| orchestrator. (* System Orchestrator *)

#[global] Instance AgentId_eq_dec : EqDecision AgentId.
Proof. solve_decision. Defined.

(** ** The intent classifier *)

Definition analyzeIntent (message : string) : AgentId :=
  let lowerMessage := toLowerCase message in
  (* Agent 1: Web Scraper & Data Collector *)
  if includes lowerMessage "upload" ||
     includes lowerMessage "scrape" ||
     includes lowerMessage "collect" ||
     includes lowerMessage "file" ||
     includes lowerMessage "attachment" ||
     includes lowerMessage "download" ||
     includes lowerMessage "extract data"
  then agent1
  (* Agent 2: Knowledge Base Creator *)
  else if includes lowerMessage "knowledge" ||
     includes lowerMessage "document" ||
     includes lowerMessage "search" ||
     includes lowerMessage "find" ||
     includes lowerMessage "what were" ||
     includes lowerMessage "last" ||
     includes lowerMessage "process for" ||
     includes lowerMessage "how to" ||
     includes lowerMessage "procedure" ||
     includes lowerMessage "incorporated" ||
     includes lowerMessage "added to"
  then agent2
  (* Agent 3: Database Manager *)
  else if includes lowerMessage "how many" ||
     includes lowerMessage "sold" ||
     includes lowerMessage "database" ||
     includes lowerMessage "analytics" ||
     includes lowerMessage "report" ||
     includes lowerMessage "count" ||
     includes lowerMessage "statistics" ||
     includes lowerMessage "backup" ||
     includes lowerMessage "last week" ||
     includes lowerMessage "last month"
  then agent3
  (* Agent 4: Data Transformer *)
  else if includes lowerMessage "transform" ||
     includes lowerMessage "convert" ||
     includes lowerMessage "bestbuy" ||
     includes lowerMessage "walmart" ||
     includes lowerMessage "format" ||
     includes lowerMessage "mapping" ||
     includes lowerMessage "template"
  then agent4
  (* Default to orchestrator for general queries *)
  else orchestrator.

(** The four keyword sets as the specification lists them (section 4.1);
    the theorems below relate them to the conditions of [analyzeIntent]. *)
Definition collector_keywords : list string :=
  ["upload"; "scrape"; "collect"; "file"; "attachment"; "download";
   "extract data"].

Definition knowledge_keywords : list string :=
  ["knowledge"; "document"; "search"; "find"; "what were"; "last";
   "process for"; "how to"; "procedure"; "incorporated"; "added to"].

Definition database_keywords : list string :=
  ["how many"; "sold"; "database"; "analytics"; "report"; "count";
   "statistics"; "backup"; "last week"; "last month"].

Definition transformer_keywords : list string :=
  ["transform"; "convert"; "bestbuy"; "walmart"; "format"; "mapping";
   "template"].

Definition all_keywords : list string :=
  collector_keywords ++ knowledge_keywords ++ database_keywords ++
  transformer_keywords.


(** ** Static agent configuration *)

Module AgentConfig.
(** One entry of [AGENT_CONFIGS]. The [icon] and [description] fields only
    feed the rendering and are left out. *)
Record t : Type := mk {
  name : string;
  color : string;
  url : string
}.
End AgentConfig.

Definition AGENT_CONFIGS (agentId : AgentId) : AgentConfig.t :=
  match agentId with
  | agent1 =>
      AgentConfig.mk "Web Scraper & Data Collector" "bg-blue-500"
        "https://3dhkilcjlzdj.manus.space"
  | agent2 =>
      AgentConfig.mk "Knowledge Base Creator" "bg-green-500"
        "https://g8h3ilcv0k7m.manus.space"
  | agent3 =>
      AgentConfig.mk "Database Manager" "bg-purple-500"
        "https://77h9ikczonwo.manus.space"
  | agent4 =>
      AgentConfig.mk "Data Transformer" "bg-orange-500"
        "https://lnh8imcj5kwd.manus.space"
  | orchestrator =>
      AgentConfig.mk "System Orchestrator" "bg-indigo-500"
        "https://mzhyi8cnozj8.manus.space"
  end.

(** ** Values exchanged with the backends *)

Module File.
(** A browser [File]: its name and its bytes. *)
Record t : Type := mk {
  name : string;
  bytes : string
}.
End File.

(** Parsed JSON. An object is the list of its own properties, each key
    once; numbers are kept as integers, only their being zero is observed. *)
Inductive Json : Type :=
| JNull
| JBool (b : bool)
| JNumber (n : Z)
| JString (s : string)
| JArray (items : list Json)
| JObject (fields : list (string * Json)).

(** A thrown value: an [Error] object, of which the code reads [message]. *)
Record Error : Type := mkError { error_message : string }.

(** ToBoolean on a JSON value. *)
Definition Json_truthy (j : Json) : bool :=
  match j with
  | JNull => false
  | JBool b => b
  | JNumber n => negb (n =? 0)%Z
  | JString s => truthy s
  | JArray _ | JObject _ => true
  end.

Fixpoint assoc (key : string) (fields : list (string * Json)) : option Json :=
  match fields with
  | [] => None
  | (k, v) :: rest => if String.eqb k key then Some v else assoc key rest
  end.

(** The engine's TypeError for a property read on [null] or [undefined]
    (V8's wording; nothing below depends on the text). *)
Definition TypeError_read (base prop : string) : Error :=
  mkError ("Cannot read properties of " +:+ base +:+ " (reading '" +:+ prop +:+ "')").

(** [o.prop ? true : false] for [o] a parsed JSON value or [undefined]
    ([None]): reading a property of [null] or [undefined] throws, a missing
    property or a property of a primitive is [undefined], hence falsy. *)
Definition property_truthy (o : option Json) (prop : string) : Error + bool :=
  match o with
  | None => inl (TypeError_read "undefined" prop)
  | Some JNull => inl (TypeError_read "null" prop)
  | Some (JObject fields) =>
      inr (from_option Json_truthy false (assoc prop fields))
  | Some _ => inr false
  end.

Inductive Body : Type :=
| BodyNull
| BodyJson (value : Json)                       (* JSON.stringify(value) *)
| BodyFormData (entries : list (string * File.t)).

Module RequestInit.
Record t : Type := mk {
  method : string;
  headers : list (string * string);
  body : Body
}.
End RequestInit.

(** A call [fetch(url, init)]. *)
Record Request : Type := mkRequest {
  request_url : string;
  request_init : RequestInit.t
}.

Module Response.
(** What the code reads of a [Response]: the status, from which [ok]
    derives, and the outcome of parsing its body with [json()]. *)
Record t : Type := mk {
  status : Z;
  parsed : Error + Json
}.

(** [response.ok]: the status is in the range 200-299. *)
Definition ok (r : t) : bool := (200 <=? status r)%Z && (status r <=? 299)%Z.
End Response.

(** ** Transcript and component state *)

Module Message.
(** A transcript entry. The source builds three shapes of object; a field
    a shape does not have is [None] ([undefined]). [type] is one of
    ["system"], ["user"], ["agent"]. *)
Record t : Type := mk {
  id : Z;
  type : string;
  content : string;
  timestamp : Z;
  agent : option AgentId;
  file : option File.t;
  success : option bool;
  data : option Json
}.
End Message.

(** The four [useState] cells of the component. *)
Record State : Type := mkState {
  messages : list Message.t;
  inputValue : string;
  isLoading : bool;
  selectedFile : option File.t
}.

(** ** Programs

    Handlers are [async] functions. A program either returns, throws,
    performs a synchronous effect and goes on, or awaits a promise and
    goes on when the promise is settled. *)

Inductive Settled (X : Type) : Type :=
| Resolved (x : X)
| Rejected (e : Error).
Arguments Resolved {X} x.
Arguments Rejected {X} e.

(** Synchronous effects: the clock, the state setters, the hidden file input. *)
Inductive Eff : Type -> Type :=
| DateNow : Eff Z                                          (* Date.now(), new Date() *)
| SetMessages (f : list Message.t -> list Message.t) : Eff unit
| SetInputValue (v : string) : Eff unit
| SetIsLoading (b : bool) : Eff unit
| SetSelectedFile (f : option File.t) : Eff unit
| ClearFileInput : Eff unit.                               (* fileInputRef.current.value = '' *)

(** Promises the code awaits. *)
Inductive Async : Type -> Type :=
| Fetch (url : string) (init : RequestInit.t) : Async Response.t
| ReadJson (response : Response.t) : Async Json.           (* response.json() *)

Inductive Js (A : Type) : Type :=
| Return (a : A)
| Throw (e : Error)
| Sync {X : Type} (e : Eff X) (k : X -> Js A)
| Await {X : Type} (op : Async X) (k : Settled X -> Js A).
Arguments Return {A} a.
Arguments Throw {A} e.
Arguments Sync {A X} e k.
Arguments Await {A X} op k.

Fixpoint bind {A B : Type} (p : Js A) (f : A -> Js B) : Js B :=
  match p with
  | Return a => f a
  | Throw e => Throw e
  | Sync e k => Sync e (fun x => bind (k x) f)
  | Await op k => Await op (fun x => bind (k x) f)
  end.

(** [try { p } catch (error) { h error }] *)
Fixpoint try_catch {A : Type} (p : Js A) (h : Error -> Js A) : Js A :=
  match p with
  | Return a => Return a
  | Throw e => h e
  | Sync e k => Sync e (fun x => try_catch (k x) h)
  | Await op k => Await op (fun x => try_catch (k x) h)
  end.

Definition perform {X : Type} (e : Eff X) : Js X := Sync e Return.

(** [await op]: a rejection is thrown at the point of the [await]. *)
Definition await {X : Type} (op : Async X) : Js X :=
  Await op (fun s => match s with
                     | Resolved x => Return x
                     | Rejected e => Throw e
                     end).

Definition lift {A : Type} (r : Error + A) : Js A :=
  match r with
  | inl e => Throw e
  | inr a => Return a
  end.

(** Programs form a monad; stdpp's notations [x ← p; q] and [p;; q]
    sequence them like the statements of an [async] function. *)
#[global] Instance Js_ret : MRet Js := fun A a => Return a.
#[global] Instance Js_bind : MBind Js := fun A B f p => bind p f.

(** ** The dispatcher *)

Definition nl : string := String "010" "".
Definition dq : string := String "034" "".

Module UploadResult.
Record t : Type := mk {
  success : bool;
  data : option Json;
  error : option string
}.
End UploadResult.

Module SendResult.
Record t : Type := mk {
  success : bool;
  response : string;
  data : option Json
}.
End SendResult.

(** A template hole [${v}] for [v] a string or [undefined]. *)
Definition interpolate (v : option string) : string := default "undefined" v.

Definition uploadFileToAgent (file : File.t) : Js UploadResult.t :=
  let formData := [("file", file)] in
  try_catch
    (response ← await (Fetch
        (AgentConfig.url (AGENT_CONFIGS agent1) +:+ "/api/files/upload")
        (RequestInit.mk "POST" [] (BodyFormData formData)));
     if Response.ok response then
       result ← await (ReadJson response);
       Return (UploadResult.mk true (Some result) None)
     else
       Return (UploadResult.mk false None (Some "Upload failed")))
    (fun error =>
       Return (UploadResult.mk false None (Some (error_message error)))).

(** The canned texts of [generateAgentResponse]. They are only displayed;
    the few characters beyond U+00FF in them stand as in the source file. *)

Definition response_agent1 : string :=
  "I've processed your request for data collection. The web scraper is ready to handle file uploads and data extraction tasks.".

Definition response_agent2_last_documents : string :=
  "Based on the knowledge base, here are the last 3 documents that were incorporated:" +:+ nl +:+
  nl +:+ "1. Product Specification Guide (added 2 hours ago)" +:+ nl +:+
  "2. Customer Support Manual (added 1 day ago)" +:+ nl +:+
  "3. Pricing Guidelines Document (added 2 days ago)" +:+ nl +:+ nl +:+
  "Would you like me to search for specific information within these documents?".

Definition response_agent2_process : string :=
  "I found relevant information about the process you're asking about. Here's what I found in the knowledge base:" +:+
  nl +:+ nl +:+ "**Creating a New Listing Process:**" +:+ nl +:+
  "1. Gather product information and specifications" +:+ nl +:+
  "2. Prepare product images and descriptions" +:+ nl +:+
  "3. Set pricing and inventory levels" +:+ nl +:+
  "4. Configure shipping and fulfillment options" +:+ nl +:+
  "5. Review and publish the listing" +:+ nl +:+ nl +:+
  "Would you like more detailed information about any of these steps?".

Definition response_agent2 : string :=
  "I've searched the knowledge base for information related to your query. The system is ready to process documents and provide semantic search capabilities.".

Definition response_agent3_laptops : string :=
  "Based on the database analytics for last week:" +:+ nl +:+ nl +:+
  "ðŸ“Š **Laptop Sales Summary:**" +:+ nl +:+ "â€¢ Total laptops sold: 247 units" +:+ nl +:+
  "â€¢ Revenue generated: $186,420" +:+ nl +:+
  "â€¢ Top selling model: MacBook Air M2 (67 units)" +:+ nl +:+
  "â€¢ Average selling price: $755" +:+ nl +:+ "â€¢ Peak sales day: Friday (89 units)" +:+ nl +:+
  nl +:+ "Would you like a more detailed breakdown by model or day?".

Definition response_agent3 : string :=
  "Database analytics are available. I can provide sales reports, inventory counts, and performance metrics from the database.".

Definition response_agent4 : string :=
  "The data transformer is ready to convert data between different formats. I can help transform product data from BestBuy format to Walmart format, or handle other data mapping tasks.".

Definition response_orchestrator : string :=
  "System status: All agents are operational and ready to assist. I can coordinate complex workflows across multiple agents or help you with system management tasks.".

Definition response_default : string :=
  "I've processed your request and the appropriate agent is handling it.".

(** The [default] case of the source's [switch] is unreachable for the
    five keys of [AGENT_CONFIGS]. *)
Definition generateAgentResponse (agentId : AgentId) (message : string)
    (data : Json) : string :=
  let lowerMessage := toLowerCase message in
  match agentId with
  | agent1 => response_agent1
  | agent2 =>
      if includes lowerMessage "last" && includes lowerMessage "document" then
        response_agent2_last_documents
      else if includes lowerMessage "process" || includes lowerMessage "how to" then
        response_agent2_process
      else response_agent2
  | agent3 =>
      if includes lowerMessage "how many" && includes lowerMessage "laptop" then
        response_agent3_laptops
      else response_agent3
  | agent4 => response_agent4
  | orchestrator => response_orchestrator
  end.

Definition sendToAgent (agentId : AgentId) (message : string)
    (file : option File.t) : Js SendResult.t :=
  let agent := AGENT_CONFIGS agentId in
  try_catch
    (match agentId, file with
     | agent1, Some file =>
         (* Handle file upload for Agent 1 *)
         uploadResult ← uploadFileToAgent file;
         if UploadResult.success uploadResult then
           extracted ← lift (property_truthy (UploadResult.data uploadResult)
                               "extracted_data");
           Return (SendResult.mk true
             ("File " +:+ dq +:+ File.name file +:+ dq +:+
              " uploaded successfully! Extracted " +:+
              (if extracted : bool then "text content and metadata"
               else "file information") +:+ ".")
             (UploadResult.data uploadResult))
         else
           Return (SendResult.mk false
             ("Failed to upload file: " +:+
              interpolate (UploadResult.error uploadResult))
             None)
     | _, _ =>
         (* Handle different agent endpoints based on intent *)
         let endpoint :=
           match agentId with
           | agent2 => "/api/knowledge/search"
           | agent3 => "/api/analytics/"
           | agent4 => "/api/transformer/health"
           | orchestrator => "/api/orchestrator/status"
           | agent1 => "/api/health"
           end in
         let method :=
           match agentId with
           | agent2 => "POST"
           | _ => "GET"
           end in
         let body :=
           match agentId with
           | agent2 =>
               BodyJson (JObject [("query", JString message);
                                  ("max_results", JNumber 5)])
           | _ => BodyNull
           end in
         response ← await (Fetch (AgentConfig.url agent +:+ endpoint)
           (RequestInit.mk method [("Content-Type", "application/json")] body));
         if Response.ok response then
           result ← await (ReadJson response);
           Return (SendResult.mk true
             (generateAgentResponse agentId message result) (Some result))
         else
           Return (SendResult.mk false
             (AgentConfig.name agent +:+
              " is currently unavailable. Please try again later.")
             None)
     end)
    (fun error =>
       Return (SendResult.mk false
         ("Error communicating with " +:+ AgentConfig.name agent +:+ ": " +:+
          error_message error)
         None)).

(** ** Event handlers *)

(** [selectedFile?.name] inside a template literal. *)
Definition optional_name (selectedFile : option File.t) : string :=
  interpolate (File.name <$> selectedFile).

(** The object literal [userMessage], as a function of the two clock
    reads and of the state it closes over. *)
Definition userMessage (now date : Z) (inputValue : string)
    (selectedFile : option File.t) : Message.t :=
  Message.mk now "user"
    (or_else inputValue ("Uploading file: " +:+ optional_name selectedFile))
    date None selectedFile None None.

(** The object literal [agentMessage]. *)
Definition agentMessage (now date : Z) (targetAgent : AgentId)
    (result : SendResult.t) : Message.t :=
  Message.mk (now + 1)%Z "agent" (SendResult.response result) date
    (Some targetAgent) None (Some (SendResult.success result))
    (SendResult.data result).

(** The handler closes over the state of the render it belongs to. *)
Definition handleSendMessage (st : State) : Js unit :=
  let inputValue := inputValue st in
  let selectedFile := selectedFile st in
  if negb (truthy (trim inputValue)) && negb (bool_decide (is_Some selectedFile))
  then Return tt
  else
    now1 ← perform DateNow;
    date1 ← perform DateNow;
    perform (SetMessages (fun prev =>
      prev ++ [userMessage now1 date1 inputValue selectedFile]));;
    perform (SetIsLoading true);;
    (* Analyze intent and route to appropriate agent *)
    let targetAgent :=
      analyzeIntent (or_else inputValue ("upload file " +:+ optional_name selectedFile)) in
    (* Send to agent *)
    result ← sendToAgent targetAgent inputValue selectedFile;
    now2 ← perform DateNow;
    date2 ← perform DateNow;
    perform (SetMessages (fun prev =>
      prev ++ [agentMessage now2 date2 targetAgent result]));;
    perform (SetInputValue "");;
    perform (SetSelectedFile None);;
    perform (SetIsLoading false);;
    perform ClearFileInput.

(** [event.target.files] is the list of chosen files. *)
Definition handleFileSelect (files : list File.t) : Js unit :=
  match files with
  | file :: _ => perform (SetSelectedFile (Some file))
  | [] => Return tt
  end.

Definition handleKeyPress (st : State) (key : string) (shiftKey : bool) : Js unit :=
  if String.eqb key "Enter" && negb shiftKey then handleSendMessage st
  else Return tt.

(** [onChange] of the text input. *)
Definition handleChange (value : string) : Js unit :=
  perform (SetInputValue value).

(** [onClick] of the Remove button. *)
Definition handleRemove : Js unit :=
  perform (SetSelectedFile None);;
  perform ClearFileInput.

(** [disabled] of the Send button. *)
Definition sendDisabled (st : State) : bool :=
  isLoading st ||
  (negb (truthy (trim (inputValue st))) && negb (bool_decide (is_Some (selectedFile st)))).

(** ** Running programs *)

(** A program waiting for a promise. *)
Inductive Suspended : Type :=
| Susp {X : Type} (op : Async X) (k : Settled X -> Js unit).

(** The component together with what surrounds it: the files held by the
    hidden file input, the number of clock reads so far, the requests
    issued so far, the handlers waiting for a promise, and the errors no
    handler caught. *)
Record Config : Type := mkConfig {
  ui : State;
  fileInput : list File.t;
  reads : nat;
  sent : list Request;
  waiting : list Suspended;
  uncaught : list Error
}.

Definition with_ui (f : State -> State) (c : Config) : Config :=
  mkConfig (f (ui c)) (fileInput c) (reads c) (sent c) (waiting c) (uncaught c).

Definition with_waiting (w : list Suspended) (c : Config) : Config :=
  mkConfig (ui c) (fileInput c) (reads c) (sent c) w (uncaught c).

(** Calling [fetch] issues the request at once; [json()] issues none. *)
Definition issue {X : Type} (op : Async X) (c : Config) : Config :=
  match op with
  | Fetch url init =>
      mkConfig (ui c) (fileInput c) (reads c) (sent c ++ [mkRequest url init])
        (waiting c) (uncaught c)
  | ReadJson _ => c
  end.

Definition greeting : string :=
  "Welcome to the Multi-Agent MCP System! I can help you with data collection, knowledge management, database operations, and data transformation. What would you like to do?".

Section Semantics.

(** The clock: the value of the [n]-th read by a handler (the reads of
    the renderer are not counted). *)
Variable clock : nat -> Z.

Definition handle {X : Type} (e : Eff X) (c : Config) : X * Config :=
  match e in Eff X return X * Config with
  | DateNow =>
      (clock (reads c),
       mkConfig (ui c) (fileInput c) (S (reads c)) (sent c) (waiting c) (uncaught c))
  | SetMessages f =>
      (tt, with_ui (fun st => mkState (f (messages st)) (inputValue st)
                                (isLoading st) (selectedFile st)) c)
  | SetInputValue v =>
      (tt, with_ui (fun st => mkState (messages st) v (isLoading st)
                                (selectedFile st)) c)
  | SetIsLoading b =>
      (tt, with_ui (fun st => mkState (messages st) (inputValue st) b
                                (selectedFile st)) c)
  | SetSelectedFile f =>
      (tt, with_ui (fun st => mkState (messages st) (inputValue st)
                                (isLoading st) f) c)
  | ClearFileInput =>
      (tt, mkConfig (ui c) [] (reads c) (sent c) (waiting c) (uncaught c))
  end.

(** Run a program up to its next [await]: there it is parked in [waiting]. *)
Fixpoint exec (p : Js unit) (c : Config) : Config :=
  match p with
  | Return _ => c
  | Throw e =>
      mkConfig (ui c) (fileInput c) (reads c) (sent c) (waiting c) (uncaught c ++ [e])
  | Sync e k => let (x, c') := handle e c in exec (k x) c'
  | Await op k =>
      let c' := issue op c in with_waiting (waiting c' ++ [Susp op k]) c'
  end.

(** The promise of [response.json()] settles as the response says. *)
Definition settle_json (response : Response.t) : Settled Json :=
  match Response.parsed response with
  | inl e => Rejected e
  | inr j => Resolved j
  end.

(** The initial render: the transcript holds the greeting, stamped by the
    first clock read. *)
Definition initial : Config :=
  mkConfig
    (mkState [Message.mk 1 "system" greeting (clock 0) (Some orchestrator)
                None None None]
       "" false None)
    [] 1 [] [] [].

(** One step of the page: a user event the rendered controls allow, or a
    pending promise being settled. *)
Inductive step : Config -> Config -> Prop :=
| step_change c value :
    isLoading (ui c) = false ->
    step c (exec (handleChange value) c)
| step_key_press c key shiftKey :
    isLoading (ui c) = false ->
    step c (exec (handleKeyPress (ui c) key shiftKey) c)
| step_click_send c :
    sendDisabled (ui c) = false ->
    step c (exec (handleSendMessage (ui c)) c)
| step_file_select c files :
    isLoading (ui c) = false ->
    step c (exec (handleFileSelect files)
              (mkConfig (ui c) files (reads c) (sent c) (waiting c) (uncaught c)))
| step_click_remove c :
    is_Some (selectedFile (ui c)) ->
    step c (exec handleRemove c)
| step_fetch_settled c w1 w2 url init k (answer : Settled Response.t) :
    waiting c = w1 ++ Susp (Fetch url init) k :: w2 ->
    step c (exec (k answer) (with_waiting (w1 ++ w2) c))
| step_json_settled c w1 w2 response k :
    waiting c = w1 ++ Susp (ReadJson response) k :: w2 ->
    step c (exec (k (settle_json response)) (with_waiting (w1 ++ w2) c)).

Definition reachable (c : Config) : Prop := rtc step initial c.

(** The network: the answer to the [n]-th request issued. *)
Variable network : nat -> Request -> Settled Response.t.

Definition answer {X : Type} (op : Async X) (c : Config) : Settled X :=
  match op in Async X return Settled X with
  | Fetch url init => network (length (sent c)) (mkRequest url init)
  | ReadJson response => settle_json response
  end.

(** Run a program to its end, every promise settled by the network as
    soon as it is awaited and no other event in between. The result is how
    the promise of the [async] function settles. *)
Fixpoint run {A : Type} (p : Js A) (c : Config) : Settled A * Config :=
  match p with
  | Return a => (Resolved a, c)
  | Throw e => (Rejected e, c)
  | Sync e k => let (x, c') := handle e c in run (k x) c'
  | Await op k => run (k (answer op c)) (issue op c)
  end.

End Semantics.

(** ** The requests of the specification's table (section 4.2) *)

Definition upload_request (file : File.t) : Request :=
  mkRequest "https://3dhkilcjlzdj.manus.space/api/files/upload"
    (RequestInit.mk "POST" [] (BodyFormData [("file", file)])).

Definition json_headers : list (string * string) :=
  [("Content-Type", "application/json")].

Definition general_request (target : AgentId) (message : string) : Request :=
  match target with
  | agent1 =>
      mkRequest "https://3dhkilcjlzdj.manus.space/api/health"
        (RequestInit.mk "GET" json_headers BodyNull)
  | agent2 =>
      mkRequest "https://g8h3ilcv0k7m.manus.space/api/knowledge/search"
        (RequestInit.mk "POST" json_headers
           (BodyJson (JObject [("query", JString message);
                               ("max_results", JNumber 5)])))
  | agent3 =>
      mkRequest "https://77h9ikczonwo.manus.space/api/analytics/"
        (RequestInit.mk "GET" json_headers BodyNull)
  | agent4 =>
      mkRequest "https://lnh8imcj5kwd.manus.space/api/transformer/health"
        (RequestInit.mk "GET" json_headers BodyNull)
  | orchestrator =>
      mkRequest "https://mzhyi8cnozj8.manus.space/api/orchestrator/status"
        (RequestInit.mk "GET" json_headers BodyNull)
  end.

(** The one request a dispatch issues: the upload when the target is the
    collector and a file is attached, the target's own request otherwise. *)
Definition dispatch_request (target : AgentId) (message : string)
    (file : option File.t) : Request :=
  match target, file with
  | agent1, Some f => upload_request f
  | _, _ => general_request target message
  end.

(** A multipart upload carries form data. *)
Definition is_upload (r : Request) : bool :=
  match RequestInit.body (request_init r) with
  | BodyFormData _ => true
  | _ => false
  end.

Definition display_name (target : AgentId) : string :=
  AgentConfig.name (AGENT_CONFIGS target).

Definition unavailable_text (target : AgentId) : string :=
  display_name target +:+ " is currently unavailable. Please try again later.".

(** The text the send handler classifies: the typed text, or the
    synthetic upload sentence when the text is empty. *)
Definition classified_text (st : State) : string :=
  or_else (inputValue st) ("upload file " +:+ optional_name (selectedFile st)).

(** A configuration extended by one issued request. *)
Definition with_request (r : Request) (c : Config) : Config :=
  mkConfig (ui c) (fileInput c) (reads c) (sent c ++ [r]) (waiting c) (uncaught c).

(** ** The dispatcher's contract (section 4.2)

    The result of a dispatch as a function of how its one request is
    settled. [sendToAgent_run] below shows that the code computes it. *)

Definition communication_error (target : AgentId) (e : Error) : SendResult.t :=
  SendResult.mk false
    ("Error communicating with " +:+ display_name target +:+ ": " +:+ error_message e)
    None.

Definition upload_failed (reason : string) : SendResult.t :=
  SendResult.mk false ("Failed to upload file: " +:+ reason) None.

Definition upload_result (file : File.t) (settled : Settled Response.t) : SendResult.t :=
  match settled with
  | Rejected e => upload_failed (error_message e)
  | Resolved r =>
      if Response.ok r then
        match Response.parsed r with
        | inl e => upload_failed (error_message e)
        | inr payload =>
            match property_truthy (Some payload) "extracted_data" with
            | inl e => communication_error agent1 e
            | inr extracted =>
                SendResult.mk true
                  ("File " +:+ dq +:+ File.name file +:+ dq +:+
                   " uploaded successfully! Extracted " +:+
                   (if extracted : bool then "text content and metadata"
                    else "file information") +:+ ".")
                  (Some payload)
            end
        end
      else upload_failed "Upload failed"
  end.

Definition general_result (target : AgentId) (message : string)
    (settled : Settled Response.t) : SendResult.t :=
  match settled with
  | Rejected e => communication_error target e
  | Resolved r =>
      if Response.ok r then
        match Response.parsed r with
        | inl e => communication_error target e
        | inr payload =>
            SendResult.mk true (generateAgentResponse target message payload)
              (Some payload)
        end
      else SendResult.mk false (unavailable_text target) None
  end.

Definition dispatch_result (target : AgentId) (message : string)
    (file : option File.t) (settled : Settled Response.t) : SendResult.t :=
  match target, file with
  | agent1, Some f => upload_result f settled
  | _, _ => general_result target message settled
  end.

(** A send the guard of [handleSendMessage] turns away: the text is blank
    and no file is staged. *)
Definition inert (st : State) : bool :=
  blank (inputValue st) && negb (bool_decide (is_Some (selectedFile st))).

(** The target of a send. *)
Definition target_of (st : State) : AgentId := analyzeIntent (classified_text st).

(** The status of a response is outside 200-299. *)
Definition non_2xx (r : Response.t) : Prop :=
  (Response.status r < 200 \/ 299 < Response.status r)%Z.

(** ** Two properties as section 8 of the specification states them

    Both fail on the code, as shown among the concrete instances at the
    end; the theorems on the send handler state what holds instead. *)

(** Section 8: a dispatch answered by a non-2xx status yields an agent
    [Message] with [success = false] whose text contains the display name
    of the target, the file upload to the collector included. *)
Definition failed_dispatch_names_target : Prop :=
  forall (clock : nat -> Z) (network : nat -> Request -> Settled Response.t)
         (c : Config) (r : Response.t),
    inert (ui c) = false ->
    network (length (sent c))
      (dispatch_request (target_of (ui c)) (inputValue (ui c)) (selectedFile (ui c)))
      = Resolved r ->
    non_2xx r ->
    exists a,
      last (messages (ui (run clock network (handleSendMessage (ui c)) c).2)) = Some a /\
      Message.type a = "agent" /\
      Message.success a = Some false /\
      substring_of (display_name (target_of (ui c))) (Message.content a).

(** Section 8: a send with non-empty text or a staged file appends exactly
    two entries, a user [Message] and then an agent [Message]. *)
Definition nonempty_send_appends_two : Prop :=
  forall (clock : nat -> Z) (network : nat -> Request -> Settled Response.t)
         (c : Config),
    inputValue (ui c) <> "" \/ is_Some (selectedFile (ui c)) ->
    exists u a,
      messages (ui (run clock network (handleSendMessage (ui c)) c).2)
        = messages (ui c) ++ [u; a] /\
      Message.type u = "user" /\ Message.type a = "agent".

(** ** Sample environments, for the concrete instances below *)

Definition sample_clock (n : nat) : Z := 1752800000000 + Z.of_nat n.

(** A network on which every request is answered with the same status
    and the JSON body [null]. *)
Definition always_status (status : Z) : nat -> Request -> Settled Response.t :=
  fun _ _ => Resolved (Response.mk status (inr JNull)).

Definition sample_file : File.t := File.mk "report.pdf" "%PDF-1.7".

(** The page after the first render, with [value] typed into the text
    input and [file] staged. *)
Definition typed (value : string) (file : option File.t) : Config :=
  mkConfig
    (mkState (messages (ui (initial sample_clock))) value false file)
    (option_list file) 1 [] [] [].

(** ** Programs that only append to the transcript *)

Definition appends {X : Type} (e : Eff X) : Prop :=
  match e with
  | SetMessages f => forall l, l `prefix_of` f l
  | _ => True
  end.

Inductive appending {A : Type} : Js A -> Prop :=
| appending_return a : appending (Return a)
| appending_throw e : appending (Throw e)
| appending_sync {X} (e : Eff X) k :
    appends e -> (forall x, appending (k x)) -> appending (Sync e k)
| appending_await {X} (op : Async X) k :
    (forall x, appending (k x)) -> appending (Await op k).

Definition appending_suspended (s : Suspended) : Prop :=
  match s with
  | Susp op k => forall x, appending (k x)
  end.

(** Every parked handler only appends when it is resumed. *)
Definition parked_append (c : Config) : Prop :=
  Forall appending_suspended (waiting c).

(** The configuration a finished run leaves: an error that escapes the
    handler is recorded as uncaught. *)
Definition settled_config {A : Type} (r : Settled A * Config) : Config :=
  match r with
  | (Resolved _, c) => c
  | (Rejected e, c) =>
      mkConfig (ui c) (fileInput c) (reads c) (sent c) (waiting c) (uncaught c ++ [e])
  end.

(** ** The classifier as the specification words it

    Sections 4.1 and 9: an ordered list of (target, keyword set) pairs,
    evaluated top to bottom on the lower-cased input, first match wins,
    [orchestrator] when no rule matches. *)

Definition rules : list (AgentId * list string) :=
  [(agent1, collector_keywords); (agent2, knowledge_keywords);
   (agent3, database_keywords); (agent4, transformer_keywords)].

Fixpoint first_match (rs : list (AgentId * list string)) (lower : string) : AgentId :=
  match rs with
  | [] => orchestrator
  | (target, keywords) :: rest =>
      if existsb (includes lower) keywords then target
      else first_match rest lower
  end.

Definition classify (text : string) : AgentId :=
  first_match rules (toLowerCase text).

(** ** Further sample environments *)

(** A network on which every request fails in transport with [reason]. *)
Definition always_rejects (reason : string) : nat -> Request -> Settled Response.t :=
  fun _ _ => Rejected (mkError reason).

(** A network on which every request gets the response [r]. *)
Definition always_answers (r : Response.t) : nat -> Request -> Settled Response.t :=
  fun _ _ => Resolved r.

(** The status of a response is within 200-299. *)
Definition is_2xx (r : Response.t) : Prop :=
  (200 <= Response.status r <= 299)%Z.

(** ** A discipline for handlers

    What the page can see of a configuration when a handler runs or is
    resumed: the component state and the requests issued so far. *)

Definition View : Type := State * list Request.

Definition view (c : Config) : View := (ui c, sent c).

(** The effect of a synchronous effect on the component state. *)
Definition set_state {X : Type} (e : Eff X) (st : State) : State :=
  match e with
  | DateNow => st
  | SetMessages f =>
      mkState (f (messages st)) (inputValue st) (isLoading st) (selectedFile st)
  | SetInputValue v => mkState (messages st) v (isLoading st) (selectedFile st)
  | SetIsLoading b => mkState (messages st) (inputValue st) b (selectedFile st)
  | SetSelectedFile f => mkState (messages st) (inputValue st) (isLoading st) f
  | ClearFileInput => st
  end.

(** The requests issued once [op] is awaited. *)
Definition issued {X : Type} (op : Async X) (s : list Request) : list Request :=
  match op with
  | Fetch url init => s ++ [mkRequest url init]
  | ReadJson _ => s
  end.

(** [obeys I Q E P p]: started in a view that satisfies [P], the program
    [p] reaches each of its [await]s in a view that satisfies [I], goes on
    from any view that satisfies [I] when it is resumed, and either returns
    [a] in a view that satisfies [Q a] or throws [e] in a view that
    satisfies [E e]. *)
Inductive obeys {A : Type} (I : View -> Prop) (Q : A -> View -> Prop)
    (E : Error -> View -> Prop) : (View -> Prop) -> Js A -> Prop :=
| obeys_return (P : View -> Prop) a :
    (forall v, P v -> Q a v) -> obeys I Q E P (Return a)
| obeys_throw (P : View -> Prop) e :
    (forall v, P v -> E e v) -> obeys I Q E P (Throw e)
| obeys_sync (P : View -> Prop) {X} (e : Eff X) k :
    (forall x, obeys I Q E
                 (fun v => exists st, P (st, v.2) /\ v.1 = set_state e st) (k x)) ->
    obeys I Q E P (Sync e k)
| obeys_await (P : View -> Prop) {X} (op : Async X) k :
    (forall st s, P (st, s) -> I (st, issued op s)) ->
    (forall x, obeys I Q E I (k x)) ->
    obeys I Q E P (Await op k).

(** The greeting, then user and agent entries in turn; [true] when the
    last entry is a user entry that has no answer yet. *)
Inductive transcript_shape : bool -> list Message.t -> Prop :=
| shape_greeting g :
    Message.type g = "system" -> transcript_shape false [g]
| shape_user l u :
    transcript_shape false l -> Message.type u = "user" ->
    transcript_shape true (l ++ [u])
| shape_agent l a :
    transcript_shape true l -> Message.type a = "agent" ->
    transcript_shape false (l ++ [a]).

(** The number of user entries of a transcript. *)
Definition users (l : list Message.t) : nat :=
  length (filter (fun m => Message.type m = "user") l).

(** A request of the dispatch table. *)
Definition known_request (r : Request) : Prop :=
  exists target message file, r = dispatch_request target message file.

(** The view between sends ([loading = false]) and during one
    ([loading = true]). *)
Definition settled_view (loading : bool) (v : View) : Prop :=
  isLoading v.1 = loading /\
  transcript_shape loading (messages v.1) /\
  length v.2 = users (messages v.1) /\
  Forall known_request v.2.

(** A view part of the way through a send: [owed] requests are yet to
    be issued for the user entries of the transcript. *)
Definition phase (loading pending : bool) (owed : nat) (v : View) : Prop :=
  isLoading v.1 = loading /\
  transcript_shape pending (messages v.1) /\
  owed + length v.2 = users (messages v.1) /\
  Forall known_request v.2.

Definition obeys_suspended (s : Suspended) : Prop :=
  match s with
  | Susp op k =>
      forall x, obeys (settled_view true) (fun _ => settled_view false)
                  (fun _ _ => False) (settled_view true) (k x)
  end.

Definition page_invariant (c : Config) : Prop :=
  uncaught c = [] /\
  Forall obeys_suspended (waiting c) /\
  settled_view (isLoading (ui c)) (view c) /\
  length (waiting c) = if isLoading (ui c) then 1 else 0.

(** ** String lemmas *)

Lemma toLowerCase_unit_idem (c : ascii) :
  toLowerCase_unit (toLowerCase_unit c) = toLowerCase_unit c.
Proof. destruct c as [[] [] [] [] [] [] [] []]; reflexivity. Qed.

Lemma toLowerCase_idem (s : string) : toLowerCase (toLowerCase s) = toLowerCase s.
Proof.
  induction s as [|c s IH]; cbn; [reflexivity|].
  now rewrite toLowerCase_unit_idem, IH.
Qed.

Lemma toLowerCase_app (s t : string) :
  toLowerCase (s +:+ t) = toLowerCase s +:+ toLowerCase t.
Proof. induction s as [|c s IH]; cbn; [reflexivity|]. now rewrite IH. Qed.

(** A split of the lower-case form comes from a split of the string. *)
Lemma toLowerCase_app_inv (s x y : string) :
  toLowerCase s = x +:+ y ->
  exists s1 s2, s = s1 +:+ s2 /\ toLowerCase s1 = x /\ toLowerCase s2 = y.
Proof.
  revert s. induction x as [|a x IH]; intros s H.
  - exists "", s. auto.
  - destruct s as [|c s]; cbn in H; [discriminate|].
    injection H as Hc Hs.
    destruct (IH s Hs) as (s1 & s2 & -> & H1 & H2).
    exists (String c s1), s2. cbn. now rewrite Hc, H1.
Qed.

Lemma app_assoc_string (a b c : string) : (a +:+ b) +:+ c = a +:+ b +:+ c.
Proof. induction a as [|x a IH]; cbn; [reflexivity|]. now rewrite IH. Qed.

Lemma prefix_spec (t s : string) :
  String.prefix t s = true <-> exists b, s = t +:+ b.
Proof.
  revert s. induction t as [|a t IH]; intros s.
  - destruct s; cbn; split; eauto.
  - destruct s as [|c s]; cbn.
    + split; [discriminate|]. intros [b Hb]. discriminate.
    + destruct (ascii_dec a c) as [->|Hne].
      * rewrite IH. split; intros [b Hb]; exists b; congruence.
      * split; [discriminate|]. intros [b Hb]. congruence.
Qed.

Lemma includes_nil (t : string) : includes "" t = String.prefix t "".
Proof. cbn [includes]. apply orb_false_r. Qed.

Lemma includes_cons (c : ascii) (s t : string) :
  includes (String c s) t = String.prefix t (String c s) || includes s t.
Proof. reflexivity. Qed.

Lemma includes_spec (s t : string) :
  includes s t = true <-> substring_of t s.
Proof.
  unfold substring_of. induction s as [|c s IH].
  - rewrite includes_nil, prefix_spec. split.
    + intros [b Hb]. now exists "", b.
    + intros (a & b & H). destruct a; [now exists b|discriminate].
  - rewrite includes_cons, orb_true_iff, IH, prefix_spec. split.
    + intros [[b Hb]|(a & b & Hab)].
      * now exists "", b.
      * exists (String c a), b. cbn. now rewrite Hab.
    + intros (a & b & Hab). destruct a as [|x a]; cbn in Hab.
      * left. now exists b.
      * right. exists a, b. congruence.
Qed.

(** The code's test [lowerMessage.includes(kw)] is occurrence up to case. *)
Lemma includes_toLowerCase (s kw : string) :
  includes (toLowerCase s) (toLowerCase kw) = true <-> occurs_ci kw s.
Proof.
  rewrite includes_spec. unfold substring_of, occurs_ci. split.
  - intros (a' & b' & H).
    apply toLowerCase_app_inv in H as (a & r & -> & _ & H).
    apply toLowerCase_app_inv in H as (t & b & -> & Ht & _).
    now exists a, t, b.
  - intros (a & t & b & -> & Ht).
    exists (toLowerCase a), (toLowerCase b).
    now rewrite !toLowerCase_app, Ht.
Qed.

Lemma all_keywords_lower :
  Forall (fun kw => toLowerCase kw = kw) all_keywords.
Proof. repeat constructor. Qed.

Lemma includes_keyword (s kw : string) :
  kw ∈ all_keywords ->
  includes (toLowerCase s) kw = true <-> occurs_ci kw s.
Proof.
  intros Hin. rewrite <- includes_toLowerCase.
  pose proof all_keywords_lower as Hl. rewrite Forall_forall in Hl.
  now rewrite (Hl kw Hin).
Qed.

Lemma truthy_trim_blank (s : string) : truthy (trim s) = negb (blank s).
Proof.
  unfold trim. induction s as [|c s IH]; cbn; [reflexivity|].
  destruct (isWhiteSpace c) eqn:Hc; cbn; [exact IH|].
  rewrite Hc. now destruct (trimEnd s).
Qed.

(** ** The intent classifier *)

(** The cascade of [analyzeIntent] is the specification's rule table. *)
Lemma analyzeIntent_classify (s : string) : analyzeIntent s = classify s.
Proof.
  unfold analyzeIntent, classify, rules, first_match, collector_keywords,
    knowledge_keywords, database_keywords, transformer_keywords, existsb.
  now rewrite !orb_false_r, !orb_assoc.
Qed.

Lemma collector_in_all : collector_keywords ⊆ all_keywords.
Proof. intros kw H. unfold all_keywords. rewrite !elem_of_app. tauto. Qed.

Lemma knowledge_in_all : knowledge_keywords ⊆ all_keywords.
Proof. intros kw H. unfold all_keywords. rewrite !elem_of_app. tauto. Qed.

Lemma database_in_all : database_keywords ⊆ all_keywords.
Proof. intros kw H. unfold all_keywords. rewrite !elem_of_app. tauto. Qed.

Lemma transformer_in_all : transformer_keywords ⊆ all_keywords.
Proof. intros kw H. unfold all_keywords. rewrite !elem_of_app. tauto. Qed.

Lemma existsb_includes (lower : string) (keywords : list string) :
  existsb (includes lower) keywords = true <->
  exists kw, kw ∈ keywords /\ includes lower kw = true.
Proof.
  rewrite existsb_exists. split; intros (kw & Hin & H); exists kw;
    (split; [now apply list_elem_of_In|exact H]).
Qed.

(** C1. Whenever a keyword of the collector set occurs in the input up to
    letter case, [analyzeIntent] answers [agent1] (the collector), whatever
    else the input contains: the collector rule is tried first. *)
Theorem collector_rule_wins (s kw : string) :
  kw ∈ collector_keywords ->
  occurs_ci kw s ->
  analyzeIntent s = agent1.
Proof.
  intros Hin Hocc.
  apply includes_keyword in Hocc; [|now apply collector_in_all].
  rewrite analyzeIntent_classify. unfold classify, rules. cbn [first_match].
  replace (existsb _ collector_keywords) with true; [reflexivity|].
  symmetry. apply existsb_includes. eauto.
Qed.

Lemma collector_rule_wins_witness :
  "upload" ∈ collector_keywords /\
  occurs_ci "upload" "please upload and search this document" /\
  analyzeIntent "please upload and search this document" = agent1.
Proof.
  assert (Hin : "upload" ∈ collector_keywords) by (now left).
  assert (Hocc : occurs_ci "upload" "please upload and search this document").
  { exists "please ", "upload", " and search this document". split; reflexivity. }
  split; [exact Hin|]. split; [exact Hocc|].
  exact (collector_rule_wins _ _ Hin Hocc).
Defined.

(** C2 (the code departs from the claim). On the README's sample question
    [analyzeIntent] answers [agent2], the knowledge base, not [agent3], the
    database: the question contains "last", a keyword of the knowledge
    rule, which is tried before the database rule. *)
Theorem laptops_question_routes_to_knowledge :
  analyzeIntent "How many laptops were sold last week?" = agent2.
Proof. reflexivity. Qed.

(** X21. The database keywords "last week" and "last month" never decide:
    an input in which one of them occurs is claimed by an earlier rule. *)
Lemma last_week_never_reaches_database (s kw : string) :
  kw = "last week" \/ kw = "last month" ->
  occurs_ci kw s ->
  analyzeIntent s = agent1 \/ analyzeIntent s = agent2.
Proof.
  intros Hkw (a & t & b & -> & Ht).
  assert (Hlast : includes (toLowerCase (a +:+ t +:+ b)) "last" = true).
  { apply includes_spec. rewrite !toLowerCase_app, Ht.
    destruct Hkw as [-> | ->].
    - exists (toLowerCase a), (" week" +:+ toLowerCase b). reflexivity.
    - exists (toLowerCase a), (" month" +:+ toLowerCase b). reflexivity. }
  rewrite analyzeIntent_classify. unfold classify, rules. cbn [first_match].
  destruct (existsb _ collector_keywords); [now left|right].
  replace (existsb _ knowledge_keywords) with true; [reflexivity|].
  symmetry. apply existsb_includes. exists "last". split; [|exact Hlast].
  unfold knowledge_keywords. rewrite !elem_of_cons. tauto.
Qed.

(** C3. When no keyword of the four rule sets occurs in the input up to
    letter case, [analyzeIntent] answers [orchestrator]. *)
Theorem no_keyword_defaults_to_orchestrator (s : string) :
  (forall kw, kw ∈ all_keywords -> ~ occurs_ci kw s) ->
  analyzeIntent s = orchestrator.
Proof.
  intros Hnone.
  assert (Hf : forall kws, kws ⊆ all_keywords ->
                 existsb (includes (toLowerCase s)) kws = false).
  { intros kws Hsub. apply not_true_is_false. intros Hex.
    apply existsb_includes in Hex as (kw & Hin & Hinc).
    apply (Hnone kw (Hsub _ Hin)). now apply includes_keyword; [apply Hsub|]. }
  rewrite analyzeIntent_classify. unfold classify, rules. cbn [first_match].
  now rewrite !Hf by
    first [apply collector_in_all | apply knowledge_in_all
          | apply database_in_all | apply transformer_in_all].
Qed.

Lemma empty_has_no_keyword (kw : string) :
  kw ∈ all_keywords -> ~ occurs_ci kw "".
Proof.
  intros Hin Hocc. apply includes_keyword in Hocc; [|exact Hin].
  rewrite includes_nil in Hocc. destruct kw; [|discriminate].
  revert Hin. unfold all_keywords, collector_keywords, knowledge_keywords,
    database_keywords, transformer_keywords. cbn [app].
  rewrite !elem_of_cons, elem_of_nil. intuition discriminate.
Qed.

Lemma no_keyword_defaults_to_orchestrator_witness :
  (forall kw, kw ∈ all_keywords -> ~ occurs_ci kw "") /\
  analyzeIntent "" = orchestrator.
Proof.
  split; [exact empty_has_no_keyword|].
  exact (no_keyword_defaults_to_orchestrator "" empty_has_no_keyword).
Defined.

(** C4. [analyzeIntent] does not see letter case: an input and its
    lower-case form are classified alike. *)
Theorem analyzeIntent_case_insensitive (s : string) :
  analyzeIntent s = analyzeIntent (toLowerCase s).
Proof. unfold analyzeIntent. now rewrite toLowerCase_idem. Qed.

Example analyzeIntent_upload_file_upper :
  analyzeIntent "UPLOAD FILE" = analyzeIntent "upload file".
Proof. reflexivity. Qed.

(** ** Running the dispatcher *)

Section Dispatch.

Variable clock : nat -> Z.
Variable network : nat -> Request -> Settled Response.t.

#[local] Abbreviation run := (run clock network).

Lemma run_bind {A B : Type} (p : Js A) (f : A -> Js B) (c : Config) :
  run (p ≫= f) c =
    match run p c with
    | (Resolved a, c') => run (f a) c'
    | (Rejected e, c') => (Rejected e, c')
    end.
Proof.
  revert c. induction p as [a|e|X e k IH|X op k IH]; intros c; cbn.
  - reflexivity.
  - reflexivity.
  - destruct (handle clock e c) as [x c']. apply IH.
  - apply IH.
Qed.

Lemma run_try_catch {A : Type} (p : Js A) (h : Error -> Js A) (c : Config) :
  run (try_catch p h) c =
    match run p c with
    | (Resolved a, c') => (Resolved a, c')
    | (Rejected e, c') => run (h e) c'
    end.
Proof.
  revert c. induction p as [a|e|X e k IH|X op k IH]; intros c; cbn.
  - reflexivity.
  - reflexivity.
  - destruct (handle clock e c) as [x c']. apply IH.
  - apply IH.
Qed.

Lemma run_fetch (url : string) (init : RequestInit.t) (c : Config) :
  run (await (Fetch url init)) c =
    (network (length (sent c)) (mkRequest url init),
     with_request (mkRequest url init) c).
Proof. cbn. now destruct (network _ _). Qed.

Lemma run_json (r : Response.t) (c : Config) :
  run (await (ReadJson r)) c = (settle_json r, c).
Proof. cbn. now destruct (settle_json r). Qed.

Lemma run_uploadFileToAgent (file : File.t) (c : Config) :
  run (uploadFileToAgent file) c =
    (Resolved
       match network (length (sent c)) (upload_request file) with
       | Rejected e => UploadResult.mk false None (Some (error_message e))
       | Resolved r =>
           if Response.ok r then
             match Response.parsed r with
             | inl e => UploadResult.mk false None (Some (error_message e))
             | inr payload => UploadResult.mk true (Some payload) None
             end
           else UploadResult.mk false None (Some "Upload failed")
       end,
     with_request (upload_request file) c).
Proof.
  unfold uploadFileToAgent. rewrite run_try_catch, run_bind, run_fetch.
  change (mkRequest _ _) with (upload_request file).
  destruct (network _ _) as [r|e]; [|reflexivity].
  destruct (Response.ok r); [|reflexivity].
  rewrite run_bind, run_json. unfold settle_json.
  now destruct (Response.parsed r).
Qed.

(** The dispatcher computes its contract, never throws, and issues exactly
    one request, whichever way that request is settled. *)
Lemma sendToAgent_run (agentId : AgentId) (message : string)
    (file : option File.t) (c : Config) :
  run (sendToAgent agentId message file) c =
    (Resolved (dispatch_result agentId message file
                 (network (length (sent c)) (dispatch_request agentId message file))),
     with_request (dispatch_request agentId message file) c).
Proof.
  assert (Hgeneral : forall target,
    run (try_catch
           (response ← await (Fetch (request_url (general_request target message))
                                (request_init (general_request target message)));
            if Response.ok response then
              result ← await (ReadJson response);
              Return (SendResult.mk true
                        (generateAgentResponse target message result) (Some result))
            else Return (SendResult.mk false (unavailable_text target) None))
           (fun error => Return (communication_error target error))) c =
    (Resolved (general_result target message
                 (network (length (sent c)) (general_request target message))),
     with_request (general_request target message) c)).
  { intros target. rewrite run_try_catch, run_bind, run_fetch.
    replace (mkRequest _ _) with (general_request target message)
      by now destruct target.
    unfold general_result.
    destruct (network _ _) as [r|e]; [|reflexivity].
    destruct (Response.ok r); [|reflexivity].
    rewrite run_bind, run_json. unfold settle_json.
    now destruct (Response.parsed r). }
  destruct agentId, file as [f|]; try apply Hgeneral.
  unfold sendToAgent, dispatch_result, dispatch_request, upload_result.
  rewrite run_try_catch, run_bind, run_uploadFileToAgent.
  destruct (network _ _) as [r|e]; [|reflexivity].
  destruct (Response.ok r); [|reflexivity].
  destruct (Response.parsed r) as [e|payload]; [reflexivity|].
  cbn [UploadResult.success UploadResult.data].
  rewrite run_bind.
  now destruct (property_truthy (Some payload) "extracted_data").
Qed.

Lemma ok_false_non_2xx (r : Response.t) : non_2xx r -> Response.ok r = false.
Proof.
  unfold non_2xx, Response.ok. intros [H|H].
  - apply andb_false_iff. left. now apply Z.leb_gt.
  - apply andb_false_iff. right. now apply Z.leb_gt.
Qed.

Lemma general_path_request (agentId : AgentId) (message : string)
    (file : option File.t) :
  ~ (agentId = agent1 /\ is_Some file) ->
  dispatch_request agentId message file = general_request agentId message /\
  forall settled,
    dispatch_result agentId message file settled =
    general_result agentId message settled.
Proof.
  intros Hgen. destruct agentId, file as [f|]; try (split; reflexivity).
  destruct Hgen. split; [reflexivity|]. now exists f.
Qed.

(** C5. On the general path (no file upload) a non-2xx answer makes the
    dispatch result [success = false] with the fixed text "<display name>
    is currently unavailable. Please try again later.", and the dispatch
    has issued that one request and no other. *)
Theorem general_path_unavailable (agentId : AgentId) (message : string)
    (file : option File.t) (c : Config) (r : Response.t) :
  ~ (agentId = agent1 /\ is_Some file) ->
  network (length (sent c)) (general_request agentId message) = Resolved r ->
  non_2xx r ->
  run (sendToAgent agentId message file) c =
    (Resolved (SendResult.mk false
                 (display_name agentId +:+
                  " is currently unavailable. Please try again later.")
                 None),
     with_request (general_request agentId message) c) /\
  sent (run (sendToAgent agentId message file) c).2 =
    sent c ++ [general_request agentId message].
Proof.
  intros Hgen Hnet Hstatus.
  destruct (general_path_request agentId message file Hgen) as [Hreq Hres].
  rewrite sendToAgent_run, Hreq, Hres, Hnet.
  unfold general_result. rewrite (ok_false_non_2xx r Hstatus).
  split; reflexivity.
Qed.

End Dispatch.

(** ** Running the send handler *)

Section Send.

Variable clock : nat -> Z.
Variable network : nat -> Request -> Settled Response.t.

#[local] Abbreviation run := (run clock network).
#[local] Abbreviation exec := (exec clock).

Lemma guard_inert (st : State) :
  negb (truthy (trim (inputValue st))) &&
  negb (bool_decide (is_Some (selectedFile st))) = inert st.
Proof. unfold inert. now rewrite truthy_trim_blank, negb_involutive. Qed.

(** A complete send, from the click to the last state update. *)
Lemma run_handleSendMessage (c : Config) :
  run (handleSendMessage (ui c)) c =
    if inert (ui c) then (Resolved tt, c)
    else
      let st := ui c in
      let target := target_of st in
      let request := dispatch_request target (inputValue st) (selectedFile st) in
      let result :=
        dispatch_result target (inputValue st) (selectedFile st)
          (network (length (sent c)) request) in
      (Resolved tt,
       mkConfig
         (mkState
            (messages st ++
               [userMessage (clock (reads c)) (clock (S (reads c)))
                  (inputValue st) (selectedFile st);
                agentMessage (clock (S (S (reads c)))) (clock (S (S (S (reads c)))))
                  target result])
            "" false None)
         [] (S (S (S (S (reads c))))) (sent c ++ [request]) (waiting c) (uncaught c)).
Proof.
  unfold handleSendMessage. rewrite guard_inert.
  destruct (inert (ui c)); [reflexivity|].
  repeat (rewrite run_bind;
          first [rewrite sendToAgent_run; unfold with_request
                | cbn [run perform handle]; unfold with_ui];
          cbn [ui fileInput reads sent waiting uncaught messages inputValue
               isLoading selectedFile]).
  unfold target_of, classified_text. cbn zeta.
  now rewrite <- app_assoc.
Qed.

(** The dispatcher begins by calling [fetch] on its one request. *)
Lemma sendToAgent_awaits_fetch (agentId : AgentId) (message : string)
    (file : option File.t) :
  exists k,
    sendToAgent agentId message file =
    Await (Fetch (request_url (dispatch_request agentId message file))
             (request_init (dispatch_request agentId message file))) k.
Proof. destruct agentId, file; eexists; reflexivity. Qed.

(** The synchronous part of a send: when the handler is parked at its
    [await], the user message is in the transcript, the request is out and
    the loading flag is up. *)
Lemma exec_handleSendMessage (c : Config) :
  inert (ui c) = false ->
  exists k,
    exec (handleSendMessage (ui c)) c =
    let st := ui c in
    let request := dispatch_request (target_of st) (inputValue st) (selectedFile st) in
    mkConfig
      (mkState
         (messages st ++
            [userMessage (clock (reads c)) (clock (S (reads c)))
               (inputValue st) (selectedFile st)])
         (inputValue st) true (selectedFile st))
      (fileInput c) (S (S (reads c))) (sent c ++ [request])
      (waiting c ++ [Susp (Fetch (request_url request) (request_init request)) k])
      (uncaught c).
Proof.
  intros Hlive. unfold handleSendMessage. rewrite guard_inert, Hlive.
  cbn [exec mbind Js_bind bind perform handle].
  fold (classified_text (ui c)). fold (target_of (ui c)).
  destruct (sendToAgent_awaits_fetch (target_of (ui c)) (inputValue (ui c))
              (selectedFile (ui c))) as [k ->].
  cbn [exec mbind Js_bind bind]. unfold issue, with_waiting, with_ui.
  cbn [ui fileInput reads sent waiting uncaught messages inputValue isLoading
       selectedFile].
  eexists. destruct (dispatch_request _ _ _). reflexivity.
Qed.

Lemma exec_handleSendMessage_inert (c : Config) :
  inert (ui c) = true -> exec (handleSendMessage (ui c)) c = c.
Proof.
  intros Hinert. unfold handleSendMessage. now rewrite guard_inert, Hinert.
Qed.

Lemma last_snoc2 (l : list Message.t) (u a : Message.t) :
  last (l ++ [u; a]) = Some a.
Proof. change [u; a] with ([u] ++ [a]). rewrite app_assoc. apply last_snoc. Qed.

(** C6, amended. A send whose request is answered by a non-2xx status
    ends with an agent [Message] of the target with [success = false]. On
    the general path its text is the "unavailable" sentence, which contains
    the display name of the target; on the file upload to the collector its
    text is "Failed to upload file: Upload failed". *)
Theorem failed_dispatch_message (c : Config) (r : Response.t) :
  inert (ui c) = false ->
  network (length (sent c))
    (dispatch_request (target_of (ui c)) (inputValue (ui c)) (selectedFile (ui c)))
    = Resolved r ->
  non_2xx r ->
  exists a,
    last (messages (ui (run (handleSendMessage (ui c)) c).2)) = Some a /\
    Message.type a = "agent" /\
    Message.agent a = Some (target_of (ui c)) /\
    Message.success a = Some false /\
    (target_of (ui c) = agent1 /\ is_Some (selectedFile (ui c)) ->
       Message.content a = "Failed to upload file: Upload failed") /\
    (~ (target_of (ui c) = agent1 /\ is_Some (selectedFile (ui c))) ->
       Message.content a = unavailable_text (target_of (ui c)) /\
       substring_of (display_name (target_of (ui c))) (Message.content a)).
Proof.
  intros Hlive Hnet Hstatus.
  rewrite run_handleSendMessage, Hlive. cbn zeta. rewrite Hnet.
  cbn [snd ui messages]. rewrite last_snoc2. eexists. split; [reflexivity|].
  unfold agentMessage.
  cbn [Message.type Message.agent Message.success Message.content].
  pose proof (ok_false_non_2xx r Hstatus) as Hok.
  split; [reflexivity|]. split; [reflexivity|]. split; [|split].
  - destruct (target_of (ui c)), (selectedFile (ui c));
      cbn [dispatch_result]; unfold upload_result, general_result;
      now rewrite Hok.
  - intros [-> [f ->]]. cbn [dispatch_result]. unfold upload_result.
    now rewrite Hok.
  - intros Hgen.
    destruct (general_path_request (target_of (ui c)) (inputValue (ui c))
                (selectedFile (ui c)) Hgen) as [_ ->].
    unfold general_result. rewrite Hok. cbn [SendResult.response].
    split; [reflexivity|].
    exists "", " is currently unavailable. Please try again later.". reflexivity.
Qed.

(** C7, amended. A send whose text is blank (empty or white space only)
    and with no staged file does nothing: no entry, no request. Every
    other send appends exactly two entries, the user [Message] and then
    the agent [Message]; the user [Message] is already in the transcript
    while the handler waits for its one request. *)
Theorem send_appends_user_then_agent (c : Config) :
  if inert (ui c) then
    run (handleSendMessage (ui c)) c = (Resolved tt, c) /\
    exec (handleSendMessage (ui c)) c = c
  else
    exists u a c',
      run (handleSendMessage (ui c)) c = (Resolved tt, c') /\
      messages (ui c') = messages (ui c) ++ [u; a] /\
      Message.type u = "user" /\
      Message.type a = "agent" /\
      messages (ui (exec (handleSendMessage (ui c)) c)) = messages (ui c) ++ [u] /\
      length (sent (exec (handleSendMessage (ui c)) c)) = S (length (sent c)) /\
      length (sent c') = S (length (sent c)).
Proof.
  destruct (inert (ui c)) eqn:Hinert.
  - split; [|now apply exec_handleSendMessage_inert].
    now rewrite run_handleSendMessage, Hinert.
  - destruct (exec_handleSendMessage c Hinert) as [k ->].
    rewrite run_handleSendMessage, Hinert. cbn zeta.
    eexists _, _, _. split; [reflexivity|].
    cbn [ui messages sent]. rewrite !length_app. cbn [length].
    repeat split; lia.
Qed.

(** C8. With empty text and a staged file the handler classifies the
    sentence "upload file <name>", and for every file name the answer is
    [agent1]: the agent [Message] carries that target and the one request
    of the send is the upload. *)
Theorem file_only_send_goes_to_collector (c : Config) (file : File.t) :
  inputValue (ui c) = "" ->
  selectedFile (ui c) = Some file ->
  classified_text (ui c) = "upload file " +:+ File.name file /\
  analyzeIntent ("upload file " +:+ File.name file) = agent1 /\
  exists u a c',
    run (handleSendMessage (ui c)) c = (Resolved tt, c') /\
    messages (ui c') = messages (ui c) ++ [u; a] /\
    Message.agent a = Some (analyzeIntent ("upload file " +:+ File.name file)) /\
    sent c' = sent c ++ [upload_request file].
Proof.
  intros Htext Hfile.
  assert (Hclass : classified_text (ui c) = "upload file " +:+ File.name file).
  { unfold classified_text. now rewrite Htext, Hfile. }
  assert (Hagent : analyzeIntent ("upload file " +:+ File.name file) = agent1)
    by reflexivity.
  split; [exact Hclass|]. split; [exact Hagent|].
  assert (Hlive : inert (ui c) = false).
  { unfold inert. rewrite Hfile. cbn. apply andb_false_r. }
  rewrite run_handleSendMessage, Hlive. cbn zeta.
  unfold target_of. rewrite Hclass, Hagent, Hfile.
  eexists _, _, _. split; [reflexivity|]. repeat split.
Qed.

(** C10. A staged file whose send is classified to another target than
    the collector is not uploaded: the one request of the send is the
    target's own, which carries no form data, and the staged file is
    cleared all the same. *)
Theorem staged_file_dropped_for_other_targets (c : Config) (file : File.t) :
  selectedFile (ui c) = Some file ->
  target_of (ui c) <> agent1 ->
  sent (run (handleSendMessage (ui c)) c).2 =
    sent c ++ [general_request (target_of (ui c)) (inputValue (ui c))] /\
  is_upload (general_request (target_of (ui c)) (inputValue (ui c))) = false /\
  selectedFile (ui (run (handleSendMessage (ui c)) c).2) = None /\
  fileInput (run (handleSendMessage (ui c)) c).2 = [].
Proof.
  intros Hfile Htarget.
  assert (Hlive : inert (ui c) = false).
  { unfold inert. rewrite Hfile. cbn. apply andb_false_r. }
  rewrite run_handleSendMessage, Hlive. cbn zeta. cbn [snd sent ui selectedFile fileInput].
  destruct (general_path_request (target_of (ui c)) (inputValue (ui c))
              (selectedFile (ui c))) as [-> _].
  { now intros [? _]. }
  repeat split. now destruct (target_of (ui c)).
Qed.

End Send.

(** ** The transcript only grows *)

Lemma bind_appending {A B : Type} (p : Js A) (f : A -> Js B) :
  appending p -> (forall a, appending (f a)) -> appending (p ≫= f).
Proof.
  intros Hp Hf. induction Hp as [a|e|X e k He Hk IH|X op k Hk IH]; cbn.
  - apply Hf.
  - constructor.
  - constructor; [exact He|exact IH].
  - constructor. exact IH.
Qed.

Lemma try_catch_appending {A : Type} (p : Js A) (h : Error -> Js A) :
  appending p -> (forall e, appending (h e)) -> appending (try_catch p h).
Proof.
  intros Hp Hh. induction Hp as [a|e|X e k He Hk IH|X op k Hk IH]; cbn.
  - constructor.
  - apply Hh.
  - constructor; [exact He|exact IH].
  - constructor. exact IH.
Qed.

Lemma perform_appending {X : Type} (e : Eff X) : appends e -> appending (perform e).
Proof. intros He. constructor; [exact He|]. intros x. constructor. Qed.

Lemma await_appending {X : Type} (op : Async X) : appending (await op).
Proof. constructor. intros [x|e]; constructor. Qed.

Lemma lift_appending {A : Type} (r : Error + A) : appending (lift r).
Proof. destruct r; constructor. Qed.

Lemma appends_snoc (m : Message.t) : appends (SetMessages (fun prev => prev ++ [m])).
Proof. intros l. now apply prefix_app_r. Qed.

Create HintDb appending.
#[local] Hint Resolve perform_appending await_appending lift_appending
  appends_snoc : appending.
#[local] Hint Constructors appending : appending.
#[local] Hint Extern 1 (appends _) => exact I : appending.

Ltac appending_steps :=
  repeat first
    [ solve [auto with appending]
    | apply bind_appending; [|intros ?]
    | apply try_catch_appending; [|intros ?]
    | match goal with |- appending (if ?b then _ else _) => destruct b end ].

Lemma appending_uploadFileToAgent (file : File.t) :
  appending (uploadFileToAgent file).
Proof. unfold uploadFileToAgent. appending_steps. Qed.

Lemma appending_sendToAgent (agentId : AgentId) (message : string)
    (file : option File.t) :
  appending (sendToAgent agentId message file).
Proof.
  pose proof appending_uploadFileToAgent as Hup.
  unfold sendToAgent. destruct agentId, file; appending_steps.
Qed.

Lemma appending_handleSendMessage (st : State) : appending (handleSendMessage st).
Proof.
  pose proof appending_sendToAgent as Hsend.
  unfold handleSendMessage. appending_steps.
Qed.

Lemma appending_handlers (st : State) (key value : string) (shiftKey : bool)
    (files : list File.t) :
  appending (handleKeyPress st key shiftKey) /\
  appending (handleChange value) /\
  appending (handleFileSelect files) /\
  appending handleRemove.
Proof.
  pose proof appending_handleSendMessage as Hsend.
  unfold handleKeyPress, handleChange, handleFileSelect, handleRemove.
  repeat split; [| |destruct files|]; appending_steps.
Qed.

Section Transcript.

Variable clock : nat -> Z.

#[local] Abbreviation exec := (exec clock).
#[local] Abbreviation step := (step clock).

Lemma handle_appends {X : Type} (e : Eff X) (c : Config) :
  appends e ->
  messages (ui c) `prefix_of` messages (ui (handle clock e c).2) /\
  waiting (handle clock e c).2 = waiting c.
Proof. destruct e; cbn; intros He; split; auto. Qed.

Lemma exec_appending (p : Js unit) (c : Config) :
  appending p ->
  parked_append c ->
  messages (ui c) `prefix_of` messages (ui (exec p c)) /\
  parked_append (exec p c).
Proof.
  intros Hp. revert c.
  induction Hp as [a|e|X e k He Hk IH|X op k Hk IH]; intros c Hc.
  - now split.
  - now split.
  - cbn [exec].
    destruct (handle_appends e c He) as [Hpre Hw].
    destruct (handle clock e c) as [x c1]. cbn [snd] in Hpre, Hw.
    destruct (IH x c1) as [Hpre' Hc'].
    { unfold parked_append. now rewrite Hw. }
    split; [now transitivity (messages (ui c1))|exact Hc'].
  - cbn [exec]. split.
    + now destruct op.
    + unfold parked_append, with_waiting. cbn [waiting].
      apply Forall_app. split; [now destruct op|].
      constructor; [exact Hk|constructor].
Qed.

Lemma with_waiting_parked (c : Config) (w1 w2 : list Suspended) (s : Suspended) :
  waiting c = w1 ++ s :: w2 ->
  parked_append c ->
  appending_suspended s /\ parked_append (with_waiting (w1 ++ w2) c).
Proof.
  unfold parked_append. intros -> H.
  apply Forall_app in H as [H1 H2]. apply Forall_cons in H2 as [Hs H2].
  split; [exact Hs|]. cbn. apply Forall_app. now split.
Qed.

Lemma step_appending (c c' : Config) :
  parked_append c -> step c c' ->
  messages (ui c) `prefix_of` messages (ui c') /\ parked_append c'.
Proof.
  intros Hc Hstep.
  destruct Hstep as [c value _|c key shiftKey _|c _|c files _|c _
                    |c w1 w2 url init k answer Hw|c w1 w2 response k Hw].
  - apply exec_appending; [|exact Hc].
    apply (appending_handlers (ui c) "" value false []).
  - apply exec_appending; [|exact Hc].
    apply (appending_handlers (ui c) key "" shiftKey []).
  - apply exec_appending; [|exact Hc]. apply appending_handleSendMessage.
  - apply (exec_appending (handleFileSelect files)
             (mkConfig (ui c) files (reads c) (sent c) (waiting c) (uncaught c)));
      [|exact Hc].
    apply (appending_handlers (ui c) "" "" false files).
  - apply exec_appending; [|exact Hc].
    apply (appending_handlers (ui c) "" "" false []).
  - destruct (with_waiting_parked c w1 w2 _ Hw Hc) as [Hk Hc'].
    apply (exec_appending (k answer) (with_waiting (w1 ++ w2) c) (Hk answer) Hc').
  - destruct (with_waiting_parked c w1 w2 _ Hw Hc) as [Hk Hc'].
    apply (exec_appending (k (settle_json response)) (with_waiting (w1 ++ w2) c)
             (Hk _) Hc').
Qed.

Lemma steps_appending (c c' : Config) :
  parked_append c -> rtc step c c' ->
  messages (ui c) `prefix_of` messages (ui c') /\ parked_append c'.
Proof.
  intros Hc Hsteps. induction Hsteps as [c|c c1 c2 Hstep _ IH].
  - now split.
  - destruct (step_appending c c1 Hc Hstep) as [Hpre Hc1].
    destruct (IH Hc1) as [Hpre' Hc2].
    split; [now transitivity (messages (ui c1))|exact Hc2].
Qed.

Lemma reachable_parked (c : Config) : reachable clock c -> parked_append c.
Proof.
  intros Hreach. apply (steps_appending (initial clock) c); [|exact Hreach].
  constructor.
Qed.

(** C9. The transcript starts as the greeting alone, a system [Message]
    of the orchestrator. From a reachable state on, whatever happens next
    leaves the current transcript in place as a prefix: entries are only
    added at the end, none is removed or changed. Hence the greeting heads
    the transcript of every reachable state. *)
Theorem transcript_append_only (c : Config) :
  reachable clock c ->
  messages (ui (initial clock)) =
    [Message.mk 1 "system" greeting (clock 0) (Some orchestrator) None None None] /\
  messages (ui (initial clock)) `prefix_of` messages (ui c) /\
  forall c', rtc step c c' -> messages (ui c) `prefix_of` messages (ui c').
Proof.
  intros Hreach. split; [reflexivity|]. split.
  - apply (steps_appending (initial clock) c); [constructor|exact Hreach].
  - intros c' Hsteps.
    apply (steps_appending c c' (reachable_parked c Hreach) Hsteps).
Qed.

End Transcript.

(** ** Complete runs are runs of the page *)

Section Adequacy.

Variable clock : nat -> Z.
Variable network : nat -> Request -> Settled Response.t.

Lemma with_waiting_parked_last (c : Config) (s : Suspended) :
  with_waiting (waiting c ++ []) (with_waiting (waiting c ++ [s]) c) = c.
Proof. destruct c. unfold with_waiting. cbn. now rewrite app_nil_r. Qed.

(** Settling each promise as soon as it is awaited is one way for the
    page to run: [run] follows the steps of [step]. *)
Lemma exec_steps_to_run (p : Js unit) (c : Config) :
  rtc (step clock) (exec clock p c) (settled_config (run clock network p c)).
Proof.
  revert c. induction p as [a|e|X e k IH|X op k IH]; intros c; cbn [exec run].
  - apply rtc_refl.
  - apply rtc_refl.
  - destruct (handle clock e c) as [x c1]. apply IH.
  - set (c1 := issue op c).
    assert (Hw : waiting (with_waiting (waiting c1 ++ [Susp op k]) c1)
                 = waiting c1 ++ Susp op k :: []) by reflexivity.
    assert (Hstep : step clock (with_waiting (waiting c1 ++ [Susp op k]) c1)
                      (exec clock (k (answer network op c)) c1)).
    { destruct op as [url init|response].
      - pose proof (step_fetch_settled clock _ _ _ url init k
                      (answer network (Fetch url init) c) Hw) as H.
        now rewrite with_waiting_parked_last in H.
      - pose proof (step_json_settled clock _ _ _ response k Hw) as H.
        now rewrite with_waiting_parked_last in H. }
    eapply rtc_l; [exact Hstep|apply IH].
Qed.

Lemma send_reachable (c : Config) :
  reachable clock c ->
  sendDisabled (ui c) = false ->
  reachable clock (run clock network (handleSendMessage (ui c)) c).2.
Proof.
  intros Hreach Henabled. unfold reachable.
  transitivity c; [exact Hreach|].
  eapply rtc_l; [exact (step_click_send clock c Henabled)|].
  pose proof (exec_steps_to_run (handleSendMessage (ui c)) c) as Hsteps.
  rewrite run_handleSendMessage in Hsteps |- *.
  now destruct (inert (ui c)).
Qed.

End Adequacy.

(** ** Concrete instances *)

Lemma general_path_unavailable_witness :
  ~ (orchestrator = agent1 /\ is_Some (@None File.t)) /\
  always_status 500 (length (sent (typed "hello" None)))
    (general_request orchestrator "hello") = Resolved (Response.mk 500 (inr JNull)) /\
  non_2xx (Response.mk 500 (inr JNull)) /\
  run sample_clock (always_status 500) (sendToAgent orchestrator "hello" None)
    (typed "hello" None) =
    (Resolved (SendResult.mk false
                 "System Orchestrator is currently unavailable. Please try again later."
                 None),
     with_request (general_request orchestrator "hello") (typed "hello" None)).
Proof.
  assert (H1 : ~ (orchestrator = agent1 /\ is_Some (@None File.t)))
    by (intros [H _]; discriminate H).
  assert (H2 : always_status 500 (length (sent (typed "hello" None)))
                 (general_request orchestrator "hello")
               = Resolved (Response.mk 500 (inr JNull))) by reflexivity.
  assert (H3 : non_2xx (Response.mk 500 (inr JNull))) by (right; cbn; lia).
  split; [exact H1|]. split; [exact H2|]. split; [exact H3|].
  exact (proj1 (general_path_unavailable sample_clock (always_status 500)
                  orchestrator "hello" None (typed "hello" None) _ H1 H2 H3)).
Defined.

(** C6 as the specification states it fails: the upload of a file that
    the collector answers with status 500 ends with the text "Failed to
    upload file: Upload failed", in which the display name does not occur. *)
Lemma failed_upload_text_omits_name : ~ failed_dispatch_names_target.
Proof.
  intros claim.
  destruct (claim sample_clock (always_status 500) (typed "" (Some sample_file))
              (Response.mk 500 (inr JNull)))
    as (a & Hlast & _ & _ & Hname).
  - reflexivity.
  - reflexivity.
  - right. cbn. lia.
  - vm_compute in Hlast. injection Hlast as <-.
    apply includes_spec in Hname. vm_compute in Hname. discriminate Hname.
Qed.

Lemma failed_dispatch_message_witness :
  inert (ui (typed "order status" None)) = false /\
  always_status 503 (length (sent (typed "order status" None)))
    (dispatch_request (target_of (ui (typed "order status" None)))
       (inputValue (ui (typed "order status" None)))
       (selectedFile (ui (typed "order status" None))))
    = Resolved (Response.mk 503 (inr JNull)) /\
  non_2xx (Response.mk 503 (inr JNull)) /\
  exists a,
    last (messages (ui (run sample_clock (always_status 503)
                          (handleSendMessage (ui (typed "order status" None)))
                          (typed "order status" None)).2)) = Some a /\
    Message.success a = Some false /\
    Message.content a =
      "System Orchestrator is currently unavailable. Please try again later.".
Proof.
  assert (H1 : inert (ui (typed "order status" None)) = false) by reflexivity.
  assert (H2 : always_status 503 (length (sent (typed "order status" None)))
                 (dispatch_request (target_of (ui (typed "order status" None)))
                    (inputValue (ui (typed "order status" None)))
                    (selectedFile (ui (typed "order status" None))))
               = Resolved (Response.mk 503 (inr JNull))) by reflexivity.
  assert (H3 : non_2xx (Response.mk 503 (inr JNull))) by (right; cbn; lia).
  split; [exact H1|]. split; [exact H2|]. split; [exact H3|].
  destruct (failed_dispatch_message sample_clock (always_status 503)
              (typed "order status" None) (Response.mk 503 (inr JNull))
              H1 H2 H3) as (a & Hlast & _ & _ & Hsuccess & _ & Hgeneral).
  exists a. split; [exact Hlast|]. split; [exact Hsuccess|].
  apply Hgeneral. intros [Htarget _]. vm_compute in Htarget. discriminate Htarget.
Defined.

(** C7 as the specification states it fails: a text of one space is not
    empty, yet sending it appends nothing. *)
Lemma whitespace_text_send_is_inert : ~ nonempty_send_appends_two.
Proof.
  intros claim.
  destruct (claim sample_clock (always_status 200) (typed " " None))
    as (u & a & Hmessages & _).
  - left. discriminate.
  - vm_compute in Hmessages. discriminate Hmessages.
Qed.

Lemma file_only_send_goes_to_collector_witness :
  inputValue (ui (typed "" (Some sample_file))) = "" /\
  selectedFile (ui (typed "" (Some sample_file))) = Some sample_file /\
  classified_text (ui (typed "" (Some sample_file))) = "upload file report.pdf" /\
  analyzeIntent "upload file report.pdf" = agent1.
Proof.
  assert (H1 : inputValue (ui (typed "" (Some sample_file))) = "") by reflexivity.
  assert (H2 : selectedFile (ui (typed "" (Some sample_file))) = Some sample_file)
    by reflexivity.
  split; [exact H1|]. split; [exact H2|].
  destruct (file_only_send_goes_to_collector sample_clock (always_status 200)
              (typed "" (Some sample_file)) sample_file H1 H2) as (Htext & Hagent & _).
  split; [exact Htext|exact Hagent].
Defined.

Lemma transcript_append_only_witness :
  reachable sample_clock (initial sample_clock) /\
  messages (ui (initial sample_clock)) `prefix_of`
    messages (ui (initial sample_clock)) /\
  forall c', rtc (step sample_clock) (initial sample_clock) c' ->
    messages (ui (initial sample_clock)) `prefix_of` messages (ui c').
Proof.
  assert (H : reachable sample_clock (initial sample_clock)) by apply rtc_refl.
  split; [exact H|].
  exact (proj2 (transcript_append_only sample_clock (initial sample_clock) H)).
Defined.

Lemma staged_file_dropped_for_other_targets_witness :
  selectedFile (ui (typed "find the contract" (Some sample_file))) = Some sample_file /\
  target_of (ui (typed "find the contract" (Some sample_file))) <> agent1 /\
  sent (run sample_clock (always_status 200)
          (handleSendMessage (ui (typed "find the contract" (Some sample_file))))
          (typed "find the contract" (Some sample_file))).2 =
    [general_request agent2 "find the contract"] /\
  selectedFile (ui (run sample_clock (always_status 200)
          (handleSendMessage (ui (typed "find the contract" (Some sample_file))))
          (typed "find the contract" (Some sample_file))).2) = None.
Proof.
  assert (H1 : selectedFile (ui (typed "find the contract" (Some sample_file)))
               = Some sample_file) by reflexivity.
  assert (H2 : target_of (ui (typed "find the contract" (Some sample_file))) <> agent1)
    by (vm_compute; discriminate).
  split; [exact H1|]. split; [exact H2|].
  destruct (staged_file_dropped_for_other_targets sample_clock (always_status 200)
              (typed "find the contract" (Some sample_file)) sample_file H1 H2)
    as (Hsent & _ & Hfile & _).
  split; [exact Hsent|exact Hfile].
Defined.

(** The three kinds of live send of C7, run on the sample environment. *)
Example send_text_only :
  map Message.type
    (messages (ui (run sample_clock (always_status 200)
                     (handleSendMessage (ui (typed "hello" None)))
                     (typed "hello" None)).2))
  = ["system"; "user"; "agent"].
Proof. reflexivity. Qed.

Example send_file_only :
  map Message.type
    (messages (ui (run sample_clock (always_status 200)
                     (handleSendMessage (ui (typed "" (Some sample_file))))
                     (typed "" (Some sample_file))).2))
  = ["system"; "user"; "agent"].
Proof. reflexivity. Qed.

Example send_text_and_file :
  map Message.type
    (messages (ui (run sample_clock (always_status 200)
                     (handleSendMessage (ui (typed "hello" (Some sample_file))))
                     (typed "hello" (Some sample_file))).2))
  = ["system"; "user"; "agent"].
Proof. reflexivity. Qed.

(** ** Outcomes of a dispatch *)

Section DispatchOutcomes.

Variable clock : nat -> Z.
Variable network : nat -> Request -> Settled Response.t.

#[local] Abbreviation run := (run clock network).

Lemma ok_true_2xx (r : Response.t) : is_2xx r -> Response.ok r = true.
Proof.
  unfold is_2xx, Response.ok. intros [H1 H2].
  apply andb_true_iff. split; now apply Z.leb_le.
Qed.

(** X1. A dispatch never throws and issues exactly one request, whatever
    the target, the message, the file and the answer of the network: the
    upload when the target is the collector and a file is attached, the
    target's own request otherwise. *)
Theorem dispatch_resolves_with_one_request (agentId : AgentId)
    (message : string) (file : option File.t) (c : Config) :
  exists result,
    run (sendToAgent agentId message file) c =
      (Resolved result, with_request (dispatch_request agentId message file) c) /\
    sent (with_request (dispatch_request agentId message file) c) =
      sent c ++ [dispatch_request agentId message file] /\
    (is_upload (dispatch_request agentId message file) = true <->
     agentId = agent1 /\ is_Some file).
Proof.
  eexists. split; [apply sendToAgent_run|]. split; [reflexivity|].
  destruct agentId, file as [f|]; cbn; split;
    first [ discriminate
          | intros [H1 H2]; first [discriminate H1 | now destruct H2]
          | intros _; split; [reflexivity|now eexists] ].
Qed.

(** X2. On the general path a request that fails in transport gives
    [success = false] with the text "Error communicating with <display
    name>: <error message>" and no payload. *)
Theorem general_path_transport_failure (agentId : AgentId) (message : string)
    (file : option File.t) (c : Config) (e : Error) :
  ~ (agentId = agent1 /\ is_Some file) ->
  network (length (sent c)) (general_request agentId message) = Rejected e ->
  run (sendToAgent agentId message file) c =
    (Resolved (SendResult.mk false
                 ("Error communicating with " +:+ display_name agentId +:+ ": " +:+
                  error_message e)
                 None),
     with_request (general_request agentId message) c).
Proof.
  intros Hgen Hnet.
  destruct (general_path_request agentId message file Hgen) as [Hreq Hres].
  now rewrite sendToAgent_run, Hreq, Hres, Hnet.
Qed.

(** X3. On the general path a 2xx response whose body is not JSON is
    reported like a transport failure, with the message of the parse
    error: the rejection of [response.json()] is caught. *)
Theorem general_path_unparseable_body (agentId : AgentId) (message : string)
    (file : option File.t) (c : Config) (r : Response.t) (e : Error) :
  ~ (agentId = agent1 /\ is_Some file) ->
  network (length (sent c)) (general_request agentId message) = Resolved r ->
  is_2xx r ->
  Response.parsed r = inl e ->
  run (sendToAgent agentId message file) c =
    (Resolved (SendResult.mk false
                 ("Error communicating with " +:+ display_name agentId +:+ ": " +:+
                  error_message e)
                 None),
     with_request (general_request agentId message) c).
Proof.
  intros Hgen Hnet Hok Hbody.
  destruct (general_path_request agentId message file Hgen) as [Hreq Hres].
  rewrite sendToAgent_run, Hreq, Hres, Hnet. unfold general_result.
  now rewrite (ok_true_2xx r Hok), Hbody.
Qed.

(** X4. A successful request on the general path gives [success = true],
    the parsed body as payload and the canned text of the target; that
    text does not depend on the payload. *)
Theorem general_path_success (agentId : AgentId) (message : string)
    (file : option File.t) (c : Config) (r : Response.t) (payload : Json) :
  ~ (agentId = agent1 /\ is_Some file) ->
  network (length (sent c)) (general_request agentId message) = Resolved r ->
  is_2xx r ->
  Response.parsed r = inr payload ->
  run (sendToAgent agentId message file) c =
    (Resolved (SendResult.mk true (generateAgentResponse agentId message payload)
                 (Some payload)),
     with_request (general_request agentId message) c) /\
  forall other : Json,
    generateAgentResponse agentId message payload =
    generateAgentResponse agentId message other.
Proof.
  intros Hgen Hnet Hok Hbody.
  destruct (general_path_request agentId message file Hgen) as [Hreq Hres].
  rewrite sendToAgent_run, Hreq, Hres, Hnet. unfold general_result.
  rewrite (ok_true_2xx r Hok), Hbody. split; reflexivity.
Qed.

(** X5. An upload that fails in transport, or whose 2xx response has a
    body that is not JSON, gives [success = false] with the text "Failed
    to upload file: <error message>". *)
Theorem upload_error_text (message : string) (file : File.t) (c : Config)
    (e : Error) :
  network (length (sent c)) (upload_request file) = Rejected e \/
  (exists r, network (length (sent c)) (upload_request file) = Resolved r /\
             is_2xx r /\ Response.parsed r = inl e) ->
  run (sendToAgent agent1 message (Some file)) c =
    (Resolved (SendResult.mk false
                 ("Failed to upload file: " +:+ error_message e) None),
     with_request (upload_request file) c).
Proof.
  intros Hnet. rewrite sendToAgent_run.
  cbn [dispatch_request dispatch_result]. unfold upload_result.
  destruct Hnet as [-> | (r & -> & Hok & Hbody)]; [reflexivity|].
  now rewrite (ok_true_2xx r Hok), Hbody.
Qed.

(** X6. A successful upload whose JSON body is not [null] gives
    [success = true], the body as payload, and a text that quotes the name
    of the file; the wording after "Extracted" follows the truthiness of
    the [extracted_data] property of the body. *)
Theorem upload_success_names_file (message : string) (file : File.t)
    (c : Config) (r : Response.t) (payload : Json) :
  network (length (sent c)) (upload_request file) = Resolved r ->
  is_2xx r ->
  Response.parsed r = inr payload ->
  payload <> JNull ->
  exists extracted : bool,
    property_truthy (Some payload) "extracted_data" = inr extracted /\
    run (sendToAgent agent1 message (Some file)) c =
      (Resolved (SendResult.mk true
                   ("File " +:+ dq +:+ File.name file +:+ dq +:+
                    " uploaded successfully! Extracted " +:+
                    (if extracted then "text content and metadata"
                     else "file information") +:+ ".")
                   (Some payload)),
       with_request (upload_request file) c) /\
    substring_of (File.name file)
      ("File " +:+ dq +:+ File.name file +:+ dq +:+
       " uploaded successfully! Extracted " +:+
       (if extracted then "text content and metadata"
        else "file information") +:+ ".").
Proof.
  intros Hnet Hok Hbody Hnull.
  assert (Hex : exists b, property_truthy (Some payload) "extracted_data" = inr b).
  { destruct payload; try (eexists; reflexivity). now destruct Hnull. }
  destruct Hex as [b Hb]. exists b. split; [exact Hb|]. split.
  - rewrite sendToAgent_run. cbn [dispatch_request dispatch_result].
    unfold upload_result. now rewrite Hnet, (ok_true_2xx r Hok), Hbody, Hb.
  - exists ("File " +:+ dq),
      (dq +:+ " uploaded successfully! Extracted " +:+
       (if b then "text content and metadata" else "file information") +:+ ".").
    reflexivity.
Qed.

(** X7. An upload answered 2xx with the JSON body [null] is reported as a
    failure: reading [extracted_data] of [null] throws, and the outer
    [catch] turns that into "Error communicating with Web Scraper & Data
    Collector: ...". *)
Theorem upload_null_body_reported_as_failure (message : string) (file : File.t)
    (c : Config) (r : Response.t) :
  network (length (sent c)) (upload_request file) = Resolved r ->
  is_2xx r ->
  Response.parsed r = inr JNull ->
  exists reason,
    run (sendToAgent agent1 message (Some file)) c =
      (Resolved (SendResult.mk false
                   ("Error communicating with Web Scraper & Data Collector: " +:+
                    reason)
                   None),
       with_request (upload_request file) c).
Proof.
  intros Hnet Hok Hbody. eexists.
  rewrite sendToAgent_run. cbn [dispatch_request dispatch_result].
  unfold upload_result. rewrite Hnet, (ok_true_2xx r Hok), Hbody.
  reflexivity.
Qed.

End DispatchOutcomes.

(** ** More on the classifier *)

Lemma rule_keywords_in_all (target : AgentId) (keywords : list string) :
  (target, keywords) ∈ rules -> keywords ⊆ all_keywords.
Proof.
  unfold rules. rewrite !elem_of_cons, elem_of_nil.
  intros [H|[H|[H|[H|[]]]]]; injection H as -> ->;
    [ apply collector_in_all | apply knowledge_in_all
    | apply database_in_all | apply transformer_in_all ].
Qed.

Lemma first_match_skips (lower : string) (earlier rest : list (AgentId * list string)) :
  (forall t kws, (t, kws) ∈ earlier -> existsb (includes lower) kws = false) ->
  first_match (earlier ++ rest) lower = first_match rest lower.
Proof.
  induction earlier as [|[t kws] earlier IH]; intros Hnone; [reflexivity|].
  cbn [app first_match]. rewrite (Hnone t kws) by now left.
  apply IH. intros t' kws' Hin. apply (Hnone t' kws'). now right.
Qed.

(** X8. The rules are tried in the order collector, knowledge, database,
    transformer: when no keyword of the earlier rules occurs in the input
    (up to letter case) and a keyword of a rule does, [analyzeIntent]
    answers the target of that rule. *)
Theorem first_matching_rule_decides (s : string)
    (earlier later : list (AgentId * list string))
    (target : AgentId) (keywords : list string) (kw : string) :
  rules = earlier ++ (target, keywords) :: later ->
  (forall t kws k, (t, kws) ∈ earlier -> k ∈ kws -> ~ occurs_ci k s) ->
  kw ∈ keywords ->
  occurs_ci kw s ->
  analyzeIntent s = target.
Proof.
  intros Hrules Hearlier Hin Hocc.
  assert (Hmem : forall t kws, (t, kws) ∈ earlier ++ (target, keywords) :: later ->
                   kws ⊆ all_keywords).
  { intros t kws H. apply (rule_keywords_in_all t). now rewrite Hrules. }
  rewrite analyzeIntent_classify. unfold classify. rewrite Hrules.
  rewrite first_match_skips.
  - cbn [first_match].
    replace (existsb _ keywords) with true; [reflexivity|].
    symmetry. apply existsb_includes. exists kw. split; [exact Hin|].
    apply includes_keyword; [|exact Hocc].
    apply (Hmem target keywords); [|exact Hin].
    apply elem_of_app. right. now left.
  - intros t kws Ht. apply not_true_is_false. intros Hex.
    apply existsb_includes in Hex as (k & Hk & Hinc).
    apply (Hearlier t kws k Ht Hk). apply includes_keyword; [|exact Hinc].
    apply (Hmem t kws); [|exact Hk]. apply elem_of_app. now left.
Qed.

Lemma substring_of_extend (t s a b : string) :
  substring_of t s -> substring_of t (a +:+ s +:+ b).
Proof.
  intros (x & y & ->). exists (a +:+ x), (y +:+ b).
  now rewrite !app_assoc_string.
Qed.

Lemma analyzeIntent_agent1_iff (s : string) :
  analyzeIntent s = agent1 <->
  existsb (includes (toLowerCase s)) collector_keywords = true.
Proof.
  rewrite analyzeIntent_classify. unfold classify, rules. cbn [first_match].
  destruct (existsb _ collector_keywords); [now split|].
  split; [|discriminate].
  destruct (existsb _ knowledge_keywords); [discriminate|].
  destruct (existsb _ database_keywords); [discriminate|].
  destruct (existsb _ transformer_keywords); discriminate.
Qed.

(** X9. A text that goes to the collector still goes to the collector
    when more text is put before or after it. *)
Theorem collector_survives_extension (s before after : string) :
  analyzeIntent s = agent1 ->
  analyzeIntent (before +:+ s +:+ after) = agent1.
Proof.
  rewrite !analyzeIntent_agent1_iff, !existsb_includes.
  intros (kw & Hin & Hinc). exists kw. split; [exact Hin|].
  apply includes_spec. rewrite !toLowerCase_app.
  apply substring_of_extend. now apply includes_spec.
Qed.

(** X10. Every keyword of the four rules, sent alone, goes to the target
    of its own rule, except "last week" and "last month", which contain
    the knowledge keyword "last". *)
Theorem keyword_alone_goes_to_its_rule (target : AgentId)
    (keywords : list string) (kw : string) :
  (target, keywords) ∈ rules ->
  kw ∈ keywords ->
  kw <> "last week" ->
  kw <> "last month" ->
  analyzeIntent kw = target.
Proof.
  intros Hrule Hin Hweek Hmonth. revert Hrule.
  unfold rules. rewrite !elem_of_cons, elem_of_nil.
  intros [H|[H|[H|[H|[]]]]]; injection H as -> ->; revert Hin;
    unfold collector_keywords, knowledge_keywords, database_keywords,
      transformer_keywords;
    rewrite !elem_of_cons, elem_of_nil; intros Hin;
    repeat (destruct Hin as [->|Hin]; [first [reflexivity | congruence]|]);
    destruct Hin.
Qed.

Lemma isWhiteSpace_toLowerCase_unit (c : ascii) :
  isWhiteSpace (toLowerCase_unit c) = isWhiteSpace c.
Proof. destruct c as [[] [] [] [] [] [] [] []]; reflexivity. Qed.

Lemma blank_toLowerCase (s : string) : blank (toLowerCase s) = blank s.
Proof.
  induction s as [|c s IH]; [reflexivity|].
  cbn [toLowerCase blank]. now rewrite isWhiteSpace_toLowerCase_unit, IH.
Qed.

Lemma blank_app (a b : string) : blank (a +:+ b) = blank a && blank b.
Proof.
  induction a as [|c a IH]; [reflexivity|].
  cbn [String.append blank]. now rewrite IH, andb_assoc.
Qed.

Lemma all_keywords_not_blank : Forall (fun kw => blank kw = false) all_keywords.
Proof. repeat constructor. Qed.

Lemma no_includes_orchestrator (s : string) :
  (forall kw, kw ∈ all_keywords -> includes (toLowerCase s) kw = false) ->
  analyzeIntent s = orchestrator.
Proof.
  intros Hnone.
  assert (Hf : forall kws, kws ⊆ all_keywords ->
                 existsb (includes (toLowerCase s)) kws = false).
  { intros kws Hsub. apply not_true_is_false. intros Hex.
    apply existsb_includes in Hex as (kw & Hin & Hinc).
    rewrite (Hnone kw (Hsub _ Hin)) in Hinc. discriminate Hinc. }
  rewrite analyzeIntent_classify. unfold classify, rules. cbn [first_match].
  now rewrite !Hf by
    first [apply collector_in_all | apply knowledge_in_all
          | apply database_in_all | apply transformer_in_all].
Qed.

(** X11. A text made of white space only goes to the orchestrator. *)
Theorem blank_text_goes_to_orchestrator (s : string) :
  blank s = true -> analyzeIntent s = orchestrator.
Proof.
  intros Hblank. apply no_includes_orchestrator. intros kw Hin.
  apply not_true_is_false. intros Hinc.
  apply includes_spec in Hinc as (a & b & Heq).
  assert (Hkw : blank kw = true).
  { pose proof (blank_toLowerCase s) as Hl. rewrite Heq, Hblank in Hl.
    rewrite !blank_app in Hl.
    apply andb_true_iff in Hl as [_ Hl]. now apply andb_true_iff in Hl as [Hl _]. }
  pose proof all_keywords_not_blank as Hall. rewrite Forall_forall in Hall.
  rewrite (Hall kw Hin) in Hkw. discriminate Hkw.
Qed.

(** ** More on the send handler *)

Section SendEffects.

Variable clock : nat -> Z.
Variable network : nat -> Request -> Settled Response.t.

#[local] Abbreviation run := (run clock network).
#[local] Abbreviation exec := (exec clock).

(** X12. A send that is not turned away leaves the controls reset: the
    text input is empty, the loading flag is down, no file is staged and
    the hidden file input is cleared. While the handler waits for its
    request the loading flag is up and the text and the staged file are
    still in place. *)
Theorem send_resets_controls (c : Config) :
  inert (ui c) = false ->
  (inputValue (ui (run (handleSendMessage (ui c)) c).2) = "" /\
   isLoading (ui (run (handleSendMessage (ui c)) c).2) = false /\
   selectedFile (ui (run (handleSendMessage (ui c)) c).2) = None /\
   fileInput (run (handleSendMessage (ui c)) c).2 = []) /\
  (isLoading (ui (exec (handleSendMessage (ui c)) c)) = true /\
   inputValue (ui (exec (handleSendMessage (ui c)) c)) = inputValue (ui c) /\
   selectedFile (ui (exec (handleSendMessage (ui c)) c)) = selectedFile (ui c) /\
   fileInput (exec (handleSendMessage (ui c)) c) = fileInput c).
Proof.
  intros Hlive. split.
  - rewrite run_handleSendMessage, Hlive. repeat split.
  - destruct (exec_handleSendMessage clock c Hlive) as [k ->]. repeat split.
Qed.

(** X13. The two entries a send appends. The user entry carries the typed
    text as it is (not trimmed), or "Uploading file: <name>" when the text
    is empty, and the staged file, uploaded or not. The agent entry carries
    the target, and the text, success flag and payload of the dispatch. *)
Theorem send_appended_entries (c : Config) :
  inert (ui c) = false ->
  exists u a result,
    messages (ui (run (handleSendMessage (ui c)) c).2) = messages (ui c) ++ [u; a] /\
    Message.content u =
      (if truthy (inputValue (ui c)) then inputValue (ui c)
       else "Uploading file: " +:+ optional_name (selectedFile (ui c))) /\
    Message.file u = selectedFile (ui c) /\
    Message.agent u = None /\
    Message.success u = None /\
    (run (sendToAgent (target_of (ui c)) (inputValue (ui c)) (selectedFile (ui c))) c).1
      = Resolved result /\
    Message.agent a = Some (target_of (ui c)) /\
    Message.content a = SendResult.response result /\
    Message.success a = Some (SendResult.success result) /\
    Message.data a = SendResult.data result /\
    Message.file a = None.
Proof.
  intros Hlive. rewrite run_handleSendMessage, Hlive. cbn zeta.
  eexists _, _, _. split; [reflexivity|].
  rewrite sendToAgent_run. repeat split.
Qed.

(** X14. A staged file sent with a text of white space only is not
    uploaded: the send goes to the orchestrator, its one request is the
    orchestrator's status request, and the staged file is cleared. *)
Theorem whitespace_text_drops_file (c : Config) (file : File.t) :
  inputValue (ui c) <> "" ->
  blank (inputValue (ui c)) = true ->
  selectedFile (ui c) = Some file ->
  target_of (ui c) = orchestrator /\
  sent (run (handleSendMessage (ui c)) c).2 =
    sent c ++ [general_request orchestrator (inputValue (ui c))] /\
  is_upload (general_request orchestrator (inputValue (ui c))) = false /\
  selectedFile (ui (run (handleSendMessage (ui c)) c).2) = None.
Proof.
  intros Hne Hblank Hfile.
  assert (Htarget : target_of (ui c) = orchestrator).
  { unfold target_of, classified_text, or_else.
    destruct (inputValue (ui c)) as [|x v] eqn:Hv; [now destruct Hne|].
    cbn [truthy]. now apply blank_text_goes_to_orchestrator. }
  assert (Hlive : inert (ui c) = false).
  { unfold inert. rewrite Hfile. cbn. apply andb_false_r. }
  split; [exact Htarget|].
  rewrite run_handleSendMessage, Hlive. cbn zeta. rewrite Htarget.
  repeat split.
Qed.

(** X15. The keyboard. Enter without Shift does what a click on Send
    does when the button is enabled, and nothing when the button is
    disabled for want of text and file; any other key, and Enter with
    Shift, does nothing. *)
Theorem key_press_effect (c : Config) (key : string) (shiftKey : bool) :
  isLoading (ui c) = false ->
  exec (handleKeyPress (ui c) key shiftKey) c =
    if String.eqb key "Enter" && negb shiftKey && negb (sendDisabled (ui c))
    then exec (handleSendMessage (ui c)) c
    else c.
Proof.
  intros Hidle. unfold handleKeyPress.
  destruct (String.eqb key "Enter" && negb shiftKey); [|reflexivity].
  cbn [andb]. unfold sendDisabled. rewrite Hidle, guard_inert. cbn [orb].
  destruct (inert (ui c)) eqn:Hinert; [|reflexivity].
  now apply exec_handleSendMessage_inert.
Qed.

(** X16. Staging a file. Choosing files stages the first of them in place
    of whatever was staged; a file dialog closed without a choice keeps
    what was staged; Remove unstages. None of the three touches the
    transcript, the text or the loading flag, or issues a request. *)
Theorem file_staging (c : Config) (file : File.t) (others : list File.t) :
  let chosen := exec (handleFileSelect (file :: others)) c in
  let cancelled := exec (handleFileSelect []) c in
  let removed := exec handleRemove c in
  selectedFile (ui chosen) = Some file /\
  selectedFile (ui cancelled) = selectedFile (ui c) /\
  selectedFile (ui removed) = None /\
  fileInput removed = [] /\
  Forall (fun c' =>
            messages (ui c') = messages (ui c) /\
            inputValue (ui c') = inputValue (ui c) /\
            isLoading (ui c') = isLoading (ui c) /\
            sent c' = sent c /\
            waiting c' = waiting c)
    [chosen; cancelled; removed].
Proof. cbn. repeat split; repeat constructor. Qed.

End SendEffects.

(** ** Handlers keep the page in order *)

Lemma obeys_mono {A : Type} (I : View -> Prop) (Q Q' : A -> View -> Prop)
    (E E' : Error -> View -> Prop) (P P' : View -> Prop) (p : Js A) :
  obeys I Q E P p ->
  (forall v, P' v -> P v) ->
  (forall a v, Q a v -> Q' a v) ->
  (forall e v, E e v -> E' e v) ->
  obeys I Q' E' P' p.
Proof.
  intros H. revert P'.
  induction H as [P a Ha|P e He|P X e k Hk IH|P X op k Hop Hk IH];
    intros P' HP HQ HE.
  - constructor. auto.
  - constructor. auto.
  - constructor. intros x. apply (IH x); [|exact HQ|exact HE].
    intros v (st & Hst & Hv). exists st. auto.
  - constructor; [auto|]. intros x. apply (IH x); auto.
Qed.

Lemma obeys_bind {A B : Type} (I : View -> Prop) (Q' : A -> View -> Prop)
    (Q : B -> View -> Prop) (E : Error -> View -> Prop) (P : View -> Prop)
    (p : Js A) (f : A -> Js B) :
  obeys I Q' E P p ->
  (forall a, obeys I Q E (Q' a) (f a)) ->
  obeys I Q E P (bind p f).
Proof.
  intros H Hf.
  induction H as [P a Ha|P e He|P X e k Hk IH|P X op k Hop Hk IH]; cbn [bind].
  - apply (obeys_mono I Q Q E E (Q' a) P); auto.
  - constructor. exact He.
  - constructor. exact IH.
  - constructor; [exact Hop|exact IH].
Qed.

Lemma obeys_try_catch {A : Type} (I : View -> Prop) (Q : A -> View -> Prop)
    (E' E : Error -> View -> Prop) (P : View -> Prop)
    (p : Js A) (h : Error -> Js A) :
  obeys I Q E' P p ->
  (forall e, obeys I Q E (E' e) (h e)) ->
  obeys I Q E P (try_catch p h).
Proof.
  intros H Hh.
  induction H as [P a Ha|P e He|P X e k Hk IH|P X op k Hop Hk IH];
    cbn [try_catch].
  - constructor. exact Ha.
  - apply (obeys_mono I Q Q E E (E' e) P); auto.
  - constructor. exact IH.
  - constructor; [exact Hop|exact IH].
Qed.

Lemma obeys_perform {X : Type} (I : View -> Prop) (Q : X -> View -> Prop)
    (E : Error -> View -> Prop) (P : View -> Prop) (e : Eff X) :
  (forall x st s, P (st, s) -> Q x (set_state e st, s)) ->
  obeys I Q E P (perform e).
Proof.
  intros H. constructor. intros x. constructor.
  intros [st' s] (st & HP & Hst). cbn in HP, Hst. subst st'. now apply H.
Qed.

Lemma obeys_await_fetch (I : View -> Prop) (P : View -> Prop)
    (url : string) (init : RequestInit.t) :
  (forall st s, P (st, s) -> I (st, s ++ [mkRequest url init])) ->
  obeys I (fun _ => I) (fun _ => I) P (await (Fetch url init)).
Proof. intros H. constructor; [exact H|]. intros [x|e]; constructor; auto. Qed.

Lemma obeys_await_json (I : View -> Prop) (P : View -> Prop) (r : Response.t) :
  (forall v, P v -> I v) ->
  obeys I (fun _ => I) (fun _ => I) P (await (ReadJson r)).
Proof.
  intros H. constructor; [intros st s; apply H|].
  intros [x|e]; constructor; auto.
Qed.

Lemma users_snoc (l : list Message.t) (m : Message.t) :
  users (l ++ [m]) =
    if decide (Message.type m = "user") then S (users l) else users l.
Proof.
  unfold users. rewrite filter_app, length_app.
  destruct (decide (Message.type m = "user")) as [H|H].
  - rewrite filter_cons_True by exact H. cbn. lia.
  - rewrite filter_cons_False by exact H. cbn. lia.
Qed.

Lemma phase_issue (st : State) (s : list Request) (r : Request) :
  phase true true 1 (st, s) ->
  known_request r ->
  settled_view true (st, s ++ [r]).
Proof.
  intros (Hl & Hshape & Hn & Hknown) Hr. repeat split; cbn in *.
  - exact Hl.
  - exact Hshape.
  - rewrite length_app. cbn. lia.
  - apply Forall_app. split; [exact Hknown|]. now constructor.
Qed.

Section Discipline.

#[local] Abbreviation busy := (settled_view true).
#[local] Abbreviation idle := (settled_view false).

Lemma obeys_uploadFileToAgent (E : Error -> View -> Prop) (file : File.t) :
  obeys busy (fun _ => busy) E (phase true true 1) (uploadFileToAgent file).
Proof.
  unfold uploadFileToAgent.
  apply obeys_try_catch with (E' := fun _ => busy).
  - apply obeys_bind with (Q' := fun _ => busy).
    + apply obeys_await_fetch. intros st s H. apply phase_issue; [exact H|].
      now exists agent1, "", (Some file).
    + intros response. destruct (Response.ok response).
      * apply obeys_bind with (Q' := fun _ => busy).
        -- now apply obeys_await_json.
        -- intros result. now constructor.
      * now constructor.
  - intros e. now constructor.
Qed.

Lemma obeys_sendToAgent (agentId : AgentId) (message : string)
    (file : option File.t) :
  obeys busy (fun _ => busy) (fun _ _ => False) (phase true true 1)
    (sendToAgent agentId message file).
Proof.
  assert (Hgeneral : forall url init,
    known_request (mkRequest url init) ->
    obeys busy (fun _ => busy) (fun _ => busy) (phase true true 1)
      (response ← await (Fetch url init);
       if Response.ok response then
         result ← await (ReadJson response);
         Return (SendResult.mk true
                   (generateAgentResponse agentId message result) (Some result))
       else
         Return (SendResult.mk false
                   (AgentConfig.name (AGENT_CONFIGS agentId) +:+
                    " is currently unavailable. Please try again later.")
                   None))).
  { intros url init Hknown.
    apply obeys_bind with (Q' := fun _ => busy).
    - apply obeys_await_fetch. intros st s H. now apply phase_issue.
    - intros response. destruct (Response.ok response).
      + apply obeys_bind with (Q' := fun _ => busy).
        * now apply obeys_await_json.
        * intros result. now constructor.
      + now constructor. }
  unfold sendToAgent.
  apply obeys_try_catch with (E' := fun _ => busy);
    [|intros e; now constructor].
  assert (Hknown : known_request (dispatch_request agentId message file))
    by now exists agentId, message, file.
  destruct agentId, file as [f|]; try (apply Hgeneral; exact Hknown).
  apply obeys_bind with (Q' := fun _ => busy).
  - apply obeys_uploadFileToAgent.
  - intros uploadResult. destruct (UploadResult.success uploadResult).
    + apply obeys_bind with (Q' := fun _ => busy).
      * destruct (property_truthy _ _); now constructor.
      * intros extracted. now constructor.
    + now constructor.
Qed.

Lemma obeys_handleSendMessage (st0 : State) :
  obeys busy (fun _ => idle) (fun _ _ => False) idle (handleSendMessage st0).
Proof.
  unfold handleSendMessage.
  destruct (_ && _); [now constructor|].
  apply obeys_bind with (Q' := fun _ => idle);
    [apply obeys_perform; now intros x st s H|intros now1].
  apply obeys_bind with (Q' := fun _ => idle);
    [apply obeys_perform; now intros x st s H|intros date1].
  apply obeys_bind with (Q' := fun _ => phase false true 1).
  { apply obeys_perform. intros x st s (Hl & Hshape & Hn & Hknown).
    cbn [fst snd] in Hl, Hshape, Hn, Hknown. unfold phase.
    cbn [fst snd set_state messages isLoading].
    repeat split; [exact Hl| | |exact Hknown].
    - now constructor.
    - rewrite users_snoc, decide_True by reflexivity. cbn [Nat.add] in Hn |- *. lia. }
  intros _.
  apply obeys_bind with (Q' := fun _ => phase true true 1).
  { apply obeys_perform. intros x st s (Hl & Hshape & Hn & Hknown).
    now repeat split. }
  intros _.
  apply obeys_bind with (Q' := fun _ => busy); [apply obeys_sendToAgent|].
  intros result.
  apply obeys_bind with (Q' := fun _ => busy);
    [apply obeys_perform; now intros x st s H|intros now2].
  apply obeys_bind with (Q' := fun _ => busy);
    [apply obeys_perform; now intros x st s H|intros date2].
  apply obeys_bind with (Q' := fun _ => phase true false 0).
  { apply obeys_perform. intros x st s (Hl & Hshape & Hn & Hknown).
    cbn [fst snd] in Hl, Hshape, Hn, Hknown. unfold phase.
    cbn [fst snd set_state messages isLoading].
    repeat split; [exact Hl| | |exact Hknown].
    - now constructor.
    - rewrite users_snoc, decide_False by discriminate. exact Hn. }
  intros _.
  apply obeys_bind with (Q' := fun _ => phase true false 0);
    [apply obeys_perform; now intros x st s H|intros _].
  apply obeys_bind with (Q' := fun _ => phase true false 0);
    [apply obeys_perform; now intros x st s H|intros _].
  apply obeys_bind with (Q' := fun _ => idle).
  { apply obeys_perform. intros x st s (Hl & Hshape & Hn & Hknown).
    now repeat split. }
  intros _. apply obeys_perform. now intros x st s H.
Qed.

End Discipline.

Section PageInvariant.

Variable clock : nat -> Z.

Lemma handle_view {X : Type} (e : Eff X) (c : Config) :
  view (handle clock e c).2 = (set_state e (ui c), sent c) /\
  waiting (handle clock e c).2 = waiting c /\
  uncaught (handle clock e c).2 = uncaught c.
Proof. destruct e; repeat split. Qed.

(** A handler that obeys the discipline, run to its next [await]: it
    leaves no uncaught error, and either ends between sends or is parked,
    alone, in the middle of one. *)
Lemma exec_obeys (p : Js unit) (P : View -> Prop) (c : Config) :
  obeys (settled_view true) (fun _ => settled_view false) (fun _ _ => False) P p ->
  P (view c) ->
  uncaught (exec clock p c) = uncaught c /\
  ((waiting (exec clock p c) = waiting c /\
    settled_view false (view (exec clock p c))) \/
   (exists s, waiting (exec clock p c) = waiting c ++ [s] /\
              settled_view true (view (exec clock p c)) /\
              obeys_suspended s)).
Proof.
  intros H. revert c.
  induction H as [P a Ha|P e He|P X e k Hk IH|P X op k Hop Hk IH]; intros c HP.
  - split; [reflexivity|]. left. split; [reflexivity|]. now apply Ha.
  - destruct (He _ HP).
  - cbn [exec].
    destruct (handle_view e c) as (Hv & Hw & Hu).
    destruct (handle clock e c) as [x c1]. cbn [snd] in Hv, Hw, Hu.
    destruct (IH x c1) as [Hu' Hcases].
    { exists (ui c). rewrite Hv. split; [exact HP|reflexivity]. }
    rewrite Hu', Hu, Hw in *. split; [reflexivity|exact Hcases].
  - cbn [exec]. split; [now destruct op|]. right. exists (Susp op k).
    split; [now destruct op|]. split; [|exact Hk].
    replace (view _) with (ui c, issued op (sent c)) by now destruct op.
    apply Hop. exact HP.
Qed.

Lemma page_invariant_frame (c c' : Config) :
  messages (ui c') = messages (ui c) ->
  isLoading (ui c') = isLoading (ui c) ->
  sent c' = sent c ->
  waiting c' = waiting c ->
  uncaught c' = uncaught c ->
  page_invariant c -> page_invariant c'.
Proof.
  unfold page_invariant, settled_view, view. cbn [fst snd].
  intros -> -> -> -> ->. tauto.
Qed.

Lemma page_invariant_send (c : Config) :
  isLoading (ui c) = false ->
  page_invariant c ->
  page_invariant (exec clock (handleSendMessage (ui c)) c).
Proof.
  intros Hidle (Hu & Hw & Hview & Hlen). rewrite Hidle in Hview, Hlen.
  destruct (exec_obeys (handleSendMessage (ui c)) (settled_view false) c)
    as [Hu' [[Hw' Hv']|(s & Hw' & Hv' & Hs)]];
    [apply obeys_handleSendMessage|exact Hview| |].
  - pose proof Hv' as (Hl & _). cbn [view fst] in Hl.
    unfold page_invariant. rewrite Hl, Hu', Hw'. auto.
  - pose proof Hv' as (Hl & _). cbn [view fst] in Hl.
    unfold page_invariant. rewrite Hl, Hu', Hw'.
    apply length_zero_iff_nil in Hlen. rewrite Hlen in *.
    repeat split; [exact Hu|now constructor|apply Hv'..].
Qed.

Lemma page_invariant_settle (c : Config) (w1 w2 : list Suspended)
    {X : Type} (op : Async X) (k : Settled X -> Js unit) (x : Settled X) :
  waiting c = w1 ++ Susp op k :: w2 ->
  page_invariant c ->
  page_invariant (exec clock (k x) (with_waiting (w1 ++ w2) c)).
Proof.
  intros Hwait (Hu & Hw & Hview & Hlen).
  rewrite Hwait in Hw, Hlen.
  apply Forall_app in Hw as [_ Hw]. apply Forall_cons in Hw as [Hk _].
  rewrite length_app in Hlen. cbn [length] in Hlen.
  destruct (isLoading (ui c)) eqn:Hloading; [|lia].
  assert (Hnil : w1 ++ w2 = []).
  { apply length_zero_iff_nil. rewrite length_app. lia. }
  rewrite Hnil.
  destruct (exec_obeys (k x) (settled_view true) (with_waiting [] c))
    as [Hu' [[Hw' Hv']|(s & Hw' & Hv' & Hs)]];
    [apply Hk|exact Hview| |].
  - pose proof Hv' as (Hl & _). cbn [view fst] in Hl.
    unfold page_invariant. rewrite Hl, Hu', Hw'. auto.
  - pose proof Hv' as (Hl & _). cbn [view fst] in Hl.
    unfold page_invariant. rewrite Hl, Hu', Hw'.
    repeat split; [exact Hu|now constructor|apply Hv'..].
Qed.

Lemma page_invariant_step (c c' : Config) :
  page_invariant c -> step clock c c' -> page_invariant c'.
Proof.
  intros Hinv Hstep.
  destruct Hstep as [c value _|c key shiftKey Hidle|c Henabled|c files _|c _
                    |c w1 w2 url init k answer Hw|c w1 w2 response k Hw].
  - now apply (page_invariant_frame c).
  - unfold handleKeyPress. destruct (_ && _); [|exact Hinv].
    now apply page_invariant_send.
  - apply page_invariant_send; [|exact Hinv].
    unfold sendDisabled in Henabled. now apply orb_false_iff in Henabled as [? _].
  - apply (page_invariant_frame c); [..|exact Hinv]; now destruct files.
  - now apply (page_invariant_frame c).
  - now apply (page_invariant_settle c w1 w2 (Fetch url init) k answer).
  - now apply (page_invariant_settle c w1 w2 (ReadJson response) k).
Qed.

Lemma page_invariant_initial : page_invariant (initial clock).
Proof.
  repeat split; try constructor. reflexivity.
Qed.

Lemma page_invariant_reachable (c : Config) :
  reachable clock c -> page_invariant c.
Proof.
  unfold reachable. revert c.
  apply rtc_ind_r; [apply page_invariant_initial|].
  intros y z _ Hstep IH. now apply (page_invariant_step y z).
Qed.

(** X17. At most one send is in flight, and no error ever escapes a
    handler: in every reachable state of the page no error is uncaught,
    and a handler is parked at an [await] exactly when the loading flag is
    up, and then it is the only one. *)
Theorem single_flight (c : Config) :
  reachable clock c ->
  uncaught c = [] /\
  length (waiting c) = if isLoading (ui c) then 1 else 0.
Proof.
  intros Hreach.
  destruct (page_invariant_reachable c Hreach) as (Hu & _ & _ & Hlen). auto.
Qed.

(** X18. In every reachable state the transcript is the greeting followed
    by user and agent entries in turn, starting with a user entry; it ends
    with a user entry exactly when the loading flag is up. *)
Theorem transcript_alternates (c : Config) :
  reachable clock c ->
  transcript_shape (isLoading (ui c)) (messages (ui c)).
Proof.
  intros Hreach.
  destruct (page_invariant_reachable c Hreach) as (_ & _ & Hview & _).
  apply Hview.
Qed.

(** X19. In every reachable state the page has issued exactly one request
    per user entry of the transcript. *)
Theorem one_request_per_user_entry (c : Config) :
  reachable clock c ->
  length (sent c) = users (messages (ui c)).
Proof.
  intros Hreach.
  destruct (page_invariant_reachable c Hreach) as (_ & _ & Hview & _).
  apply Hview.
Qed.

(** X20. Every request the page ever issues is one of the dispatch table;
    a request that carries a file is the upload to the collector. *)
Theorem only_table_requests (c : Config) (r : Request) :
  reachable clock c ->
  r ∈ sent c ->
  (exists target message file, r = dispatch_request target message file) /\
  (is_upload r = true -> exists file, r = upload_request file).
Proof.
  intros Hreach Hin.
  destruct (page_invariant_reachable c Hreach) as (_ & _ & Hview & _).
  destruct Hview as (_ & _ & _ & Hknown). cbn [view snd] in Hknown.
  rewrite Forall_forall in Hknown.
  destruct (Hknown r Hin) as (target & message & file & ->).
  split; [now exists target, message, file|].
  destruct target, file as [f|]; cbn; try discriminate.
  intros _. now exists f.
Qed.

End PageInvariant.

(** ** Concrete instances of the further properties *)

Lemma general_path_transport_failure_witness :
  ~ (agent3 = agent1 /\ is_Some (Some sample_file)) /\
  always_rejects "Failed to fetch" (length (sent (typed "sales report" None)))
    (general_request agent3 "sales report") = Rejected (mkError "Failed to fetch") /\
  run sample_clock (always_rejects "Failed to fetch")
    (sendToAgent agent3 "sales report" (Some sample_file)) (typed "sales report" None) =
    (Resolved (SendResult.mk false
                 "Error communicating with Database Manager: Failed to fetch" None),
     with_request (general_request agent3 "sales report") (typed "sales report" None)).
Proof.
  assert (H1 : ~ (agent3 = agent1 /\ is_Some (Some sample_file)))
    by (intros [H _]; discriminate H).
  split; [exact H1|]. split; [reflexivity|].
  exact (general_path_transport_failure sample_clock
           (always_rejects "Failed to fetch") agent3 "sales report"
           (Some sample_file) (typed "sales report" None)
           (mkError "Failed to fetch") H1 eq_refl).
Defined.

Lemma general_path_unparseable_body_witness :
  ~ (agent2 = agent1 /\ is_Some (@None File.t)) /\
  is_2xx (Response.mk 200 (inl (mkError "Unexpected token <"))) /\
  run sample_clock
    (always_answers (Response.mk 200 (inl (mkError "Unexpected token <"))))
    (sendToAgent agent2 "find it" None) (typed "find it" None) =
    (Resolved (SendResult.mk false
                 "Error communicating with Knowledge Base Creator: Unexpected token <"
                 None),
     with_request (general_request agent2 "find it") (typed "find it" None)).
Proof.
  assert (H1 : ~ (agent2 = agent1 /\ is_Some (@None File.t)))
    by (intros [H _]; discriminate H).
  assert (H2 : is_2xx (Response.mk 200 (inl (mkError "Unexpected token <"))))
    by (unfold is_2xx; cbn; lia).
  split; [exact H1|]. split; [exact H2|].
  exact (general_path_unparseable_body sample_clock
           (always_answers (Response.mk 200 (inl (mkError "Unexpected token <"))))
           agent2 "find it" None (typed "find it" None) _ _ H1 eq_refl H2 eq_refl).
Defined.

Lemma general_path_success_witness :
  ~ (agent1 = agent1 /\ is_Some (@None File.t)) /\
  is_2xx (Response.mk 204 (inr (JObject [("status", JString "healthy")]))) /\
  run sample_clock
    (always_answers (Response.mk 204 (inr (JObject [("status", JString "healthy")]))))
    (sendToAgent agent1 "scrape the site" None) (typed "scrape the site" None) =
    (Resolved (SendResult.mk true response_agent1
                 (Some (JObject [("status", JString "healthy")]))),
     with_request (general_request agent1 "scrape the site")
       (typed "scrape the site" None)).
Proof.
  assert (H1 : ~ (agent1 = agent1 /\ is_Some (@None File.t)))
    by (intros [_ [f H]]; discriminate H).
  assert (H2 : is_2xx (Response.mk 204 (inr (JObject [("status", JString "healthy")]))))
    by (unfold is_2xx; cbn; lia).
  split; [exact H1|]. split; [exact H2|].
  exact (proj1 (general_path_success sample_clock
                  (always_answers
                     (Response.mk 204 (inr (JObject [("status", JString "healthy")]))))
                  agent1 "scrape the site" None (typed "scrape the site" None)
                  _ _ H1 eq_refl H2 eq_refl)).
Defined.

Lemma upload_error_text_witness :
  always_rejects "Failed to fetch" (length (sent (typed "" (Some sample_file))))
    (upload_request sample_file) = Rejected (mkError "Failed to fetch") /\
  run sample_clock (always_rejects "Failed to fetch")
    (sendToAgent agent1 "" (Some sample_file)) (typed "" (Some sample_file)) =
    (Resolved (SendResult.mk false "Failed to upload file: Failed to fetch" None),
     with_request (upload_request sample_file) (typed "" (Some sample_file))).
Proof.
  split; [reflexivity|].
  exact (upload_error_text sample_clock (always_rejects "Failed to fetch")
           "" sample_file (typed "" (Some sample_file)) (mkError "Failed to fetch")
           (or_introl eq_refl)).
Defined.

Lemma upload_success_names_file_witness :
  is_2xx (Response.mk 201 (inr (JObject [("extracted_data", JString "text")]))) /\
  JObject [("extracted_data", JString "text")] <> JNull /\
  exists extracted : bool,
    property_truthy (Some (JObject [("extracted_data", JString "text")]))
      "extracted_data" = inr extracted /\
    substring_of "report.pdf"
      ("File " +:+ dq +:+ "report.pdf" +:+ dq +:+
       " uploaded successfully! Extracted " +:+
       (if extracted then "text content and metadata" else "file information") +:+
       ".").
Proof.
  assert (H2 : is_2xx (Response.mk 201
                         (inr (JObject [("extracted_data", JString "text")]))))
    by (unfold is_2xx; cbn; lia).
  assert (H4 : JObject [("extracted_data", JString "text")] <> JNull)
    by discriminate.
  split; [exact H2|]. split; [exact H4|].
  destruct (upload_success_names_file sample_clock
              (always_answers
                 (Response.mk 201 (inr (JObject [("extracted_data", JString "text")]))))
              "" sample_file (typed "" (Some sample_file)) _ _ eq_refl H2 eq_refl H4)
    as (extracted & Hflag & _ & Hname).
  exists extracted. split; [exact Hflag|exact Hname].
Defined.

Lemma upload_null_body_reported_as_failure_witness :
  is_2xx (Response.mk 200 (inr JNull)) /\
  exists reason,
    run sample_clock (always_status 200)
      (sendToAgent agent1 "" (Some sample_file)) (typed "" (Some sample_file)) =
      (Resolved (SendResult.mk false
                   ("Error communicating with Web Scraper & Data Collector: " +:+
                    reason)
                   None),
       with_request (upload_request sample_file) (typed "" (Some sample_file))).
Proof.
  assert (H2 : is_2xx (Response.mk 200 (inr JNull))) by (unfold is_2xx; cbn; lia).
  split; [exact H2|].
  exact (upload_null_body_reported_as_failure sample_clock (always_status 200)
           "" sample_file (typed "" (Some sample_file)) (Response.mk 200 (inr JNull))
           eq_refl H2 eq_refl).
Defined.

Lemma first_matching_rule_decides_witness :
  rules = [(agent1, collector_keywords); (agent2, knowledge_keywords);
           (agent3, database_keywords)] ++ (agent4, transformer_keywords) :: [] /\
  "walmart" ∈ transformer_keywords /\
  occurs_ci "walmart" "Transform BestBuy data to Walmart format" /\
  analyzeIntent "Transform BestBuy data to Walmart format" = agent4.
Proof.
  assert (H1 : rules = [(agent1, collector_keywords); (agent2, knowledge_keywords);
                        (agent3, database_keywords)]
                       ++ (agent4, transformer_keywords) :: []) by reflexivity.
  assert (H3 : "walmart" ∈ transformer_keywords)
    by (unfold transformer_keywords; rewrite !elem_of_cons; tauto).
  assert (H4 : occurs_ci "walmart" "Transform BestBuy data to Walmart format").
  { exists "Transform BestBuy data to ", "Walmart", " format". split; reflexivity. }
  assert (H2 : forall t kws k,
             (t, kws) ∈ [(agent1, collector_keywords); (agent2, knowledge_keywords);
                         (agent3, database_keywords)] ->
             k ∈ kws ->
             ~ occurs_ci k "Transform BestBuy data to Walmart format").
  { intros t kws k Ht Hk Hocc. apply includes_toLowerCase in Hocc.
    revert Ht. rewrite !elem_of_cons, elem_of_nil.
    intros [H|[H|[H|[]]]]; injection H as -> ->; revert Hk;
      unfold collector_keywords, knowledge_keywords, database_keywords;
      rewrite !elem_of_cons, elem_of_nil; intros Hk;
      repeat (destruct Hk as [->|Hk]; [vm_compute in Hocc; discriminate Hocc|]);
      destruct Hk. }
  split; [exact H1|]. split; [exact H3|]. split; [exact H4|].
  exact (first_matching_rule_decides "Transform BestBuy data to Walmart format"
           _ _ agent4 transformer_keywords "walmart" H1 H2 H3 H4).
Defined.

Lemma collector_survives_extension_witness :
  analyzeIntent "upload" = agent1 /\
  analyzeIntent ("What were the last " +:+ "upload" +:+ "s to the database?") = agent1.
Proof.
  assert (H1 : analyzeIntent "upload" = agent1) by reflexivity.
  split; [exact H1|].
  exact (collector_survives_extension "upload" "What were the last "
           "s to the database?" H1).
Defined.

Lemma keyword_alone_goes_to_its_rule_witness :
  (agent3, database_keywords) ∈ rules /\
  "backup" ∈ database_keywords /\
  "backup" <> "last week" /\
  "backup" <> "last month" /\
  analyzeIntent "backup" = agent3.
Proof.
  assert (H1 : (agent3, database_keywords) ∈ rules)
    by (unfold rules; rewrite !elem_of_cons; tauto).
  assert (H2 : "backup" ∈ database_keywords)
    by (unfold database_keywords; rewrite !elem_of_cons; tauto).
  assert (H3 : "backup" <> "last week") by discriminate.
  assert (H4 : "backup" <> "last month") by discriminate.
  split; [exact H1|]. split; [exact H2|]. split; [exact H3|]. split; [exact H4|].
  exact (keyword_alone_goes_to_its_rule agent3 database_keywords "backup"
           H1 H2 H3 H4).
Defined.

Lemma last_week_never_reaches_database_witness :
  ("last week" = "last week" \/ "last week" = "last month") /\
  occurs_ci "last week" "Sales report for LAST WEEK" /\
  (analyzeIntent "Sales report for LAST WEEK" = agent1 \/
   analyzeIntent "Sales report for LAST WEEK" = agent2).
Proof.
  assert (H1 : "last week" = "last week" \/ "last week" = "last month")
    by (left; reflexivity).
  assert (H2 : occurs_ci "last week" "Sales report for LAST WEEK").
  { exists "Sales report for ", "LAST WEEK", "". split; reflexivity. }
  split; [exact H1|]. split; [exact H2|].
  exact (last_week_never_reaches_database "Sales report for LAST WEEK" "last week"
           H1 H2).
Defined.

Lemma blank_text_goes_to_orchestrator_witness :
  blank "   " = true /\ analyzeIntent "   " = orchestrator.
Proof.
  assert (H : blank "   " = true) by reflexivity.
  split; [exact H|].
  exact (blank_text_goes_to_orchestrator "   " H).
Defined.

Lemma send_resets_controls_witness :
  inert (ui (typed "find the contract" (Some sample_file))) = false /\
  inputValue (ui (run sample_clock (always_status 200)
                    (handleSendMessage (ui (typed "find the contract" (Some sample_file))))
                    (typed "find the contract" (Some sample_file))).2) = "" /\
  isLoading (ui (exec sample_clock
                   (handleSendMessage (ui (typed "find the contract" (Some sample_file))))
                   (typed "find the contract" (Some sample_file)))) = true.
Proof.
  assert (H : inert (ui (typed "find the contract" (Some sample_file))) = false)
    by reflexivity.
  split; [exact H|].
  destruct (send_resets_controls sample_clock (always_status 200)
              (typed "find the contract" (Some sample_file)) H)
    as [(Hinput & _) (Hloading & _)].
  split; [exact Hinput|exact Hloading].
Defined.

Lemma send_appended_entries_witness :
  inert (ui (typed "" (Some sample_file))) = false /\
  exists u a,
    messages (ui (run sample_clock (always_status 500)
                    (handleSendMessage (ui (typed "" (Some sample_file))))
                    (typed "" (Some sample_file))).2)
      = messages (ui (typed "" (Some sample_file))) ++ [u; a] /\
    Message.content u = "Uploading file: report.pdf" /\
    Message.file u = Some sample_file /\
    Message.agent a = Some agent1.
Proof.
  assert (H : inert (ui (typed "" (Some sample_file))) = false) by reflexivity.
  split; [exact H|].
  destruct (send_appended_entries sample_clock (always_status 500)
              (typed "" (Some sample_file)) H)
    as (u & a & result & Hm & Hcontent & Hfile & _ & _ & _ & Hagent & _).
  exists u, a. split; [exact Hm|]. split; [exact Hcontent|].
  split; [exact Hfile|exact Hagent].
Defined.

Lemma whitespace_text_drops_file_witness :
  inputValue (ui (typed " " (Some sample_file))) <> "" /\
  blank (inputValue (ui (typed " " (Some sample_file)))) = true /\
  selectedFile (ui (typed " " (Some sample_file))) = Some sample_file /\
  target_of (ui (typed " " (Some sample_file))) = orchestrator /\
  sent (run sample_clock (always_status 200)
          (handleSendMessage (ui (typed " " (Some sample_file))))
          (typed " " (Some sample_file))).2 =
    [general_request orchestrator " "].
Proof.
  assert (H1 : inputValue (ui (typed " " (Some sample_file))) <> "") by discriminate.
  assert (H2 : blank (inputValue (ui (typed " " (Some sample_file)))) = true)
    by reflexivity.
  assert (H3 : selectedFile (ui (typed " " (Some sample_file))) = Some sample_file)
    by reflexivity.
  split; [exact H1|]. split; [exact H2|]. split; [exact H3|].
  destruct (whitespace_text_drops_file sample_clock (always_status 200)
              (typed " " (Some sample_file)) sample_file H1 H2 H3)
    as (Htarget & Hsent & _).
  split; [exact Htarget|exact Hsent].
Defined.

Lemma key_press_effect_witness :
  isLoading (ui (typed "hello" None)) = false /\
  exec sample_clock (handleKeyPress (ui (typed "hello" None)) "Enter" true)
    (typed "hello" None) = typed "hello" None /\
  exec sample_clock (handleKeyPress (ui (typed "hello" None)) "Enter" false)
    (typed "hello" None) =
  exec sample_clock (handleSendMessage (ui (typed "hello" None))) (typed "hello" None).
Proof.
  assert (H : isLoading (ui (typed "hello" None)) = false) by reflexivity.
  split; [exact H|]. split.
  - exact (key_press_effect sample_clock (typed "hello" None) "Enter" true H).
  - exact (key_press_effect sample_clock (typed "hello" None) "Enter" false H).
Defined.

(** The page after "hello" is typed, Send is clicked and the
    orchestrator answers 200. *)
Lemma sample_session_reachable :
  reachable sample_clock
    (run sample_clock (always_status 200)
       (handleSendMessage (ui (exec sample_clock (handleChange "hello")
                                 (initial sample_clock))))
       (exec sample_clock (handleChange "hello") (initial sample_clock))).2.
Proof.
  apply send_reachable; [|reflexivity].
  apply rtc_once. now apply step_change.
Qed.

Lemma single_flight_witness :
  reachable sample_clock
    (exec sample_clock
       (handleSendMessage (ui (exec sample_clock (handleChange "hello")
                                 (initial sample_clock))))
       (exec sample_clock (handleChange "hello") (initial sample_clock))) /\
  length (waiting
    (exec sample_clock
       (handleSendMessage (ui (exec sample_clock (handleChange "hello")
                                 (initial sample_clock))))
       (exec sample_clock (handleChange "hello") (initial sample_clock)))) = 1.
Proof.
  assert (H : reachable sample_clock
    (exec sample_clock
       (handleSendMessage (ui (exec sample_clock (handleChange "hello")
                                 (initial sample_clock))))
       (exec sample_clock (handleChange "hello") (initial sample_clock)))).
  { eapply rtc_l; [now apply step_change|].
    apply rtc_once. now apply step_click_send. }
  split; [exact H|].
  exact (proj2 (single_flight sample_clock _ H)).
Defined.

Lemma transcript_alternates_witness :
  reachable sample_clock
    (run sample_clock (always_status 200)
       (handleSendMessage (ui (exec sample_clock (handleChange "hello")
                                 (initial sample_clock))))
       (exec sample_clock (handleChange "hello") (initial sample_clock))).2 /\
  transcript_shape false
    (messages (ui (run sample_clock (always_status 200)
       (handleSendMessage (ui (exec sample_clock (handleChange "hello")
                                 (initial sample_clock))))
       (exec sample_clock (handleChange "hello") (initial sample_clock))).2)).
Proof.
  split; [exact sample_session_reachable|].
  exact (transcript_alternates sample_clock _ sample_session_reachable).
Defined.

Lemma one_request_per_user_entry_witness :
  reachable sample_clock
    (run sample_clock (always_status 200)
       (handleSendMessage (ui (exec sample_clock (handleChange "hello")
                                 (initial sample_clock))))
       (exec sample_clock (handleChange "hello") (initial sample_clock))).2 /\
  length (sent (run sample_clock (always_status 200)
       (handleSendMessage (ui (exec sample_clock (handleChange "hello")
                                 (initial sample_clock))))
       (exec sample_clock (handleChange "hello") (initial sample_clock))).2) = 1.
Proof.
  split; [exact sample_session_reachable|].
  exact (one_request_per_user_entry sample_clock _ sample_session_reachable).
Defined.

Lemma only_table_requests_witness :
  reachable sample_clock
    (run sample_clock (always_status 200)
       (handleSendMessage (ui (exec sample_clock (handleChange "hello")
                                 (initial sample_clock))))
       (exec sample_clock (handleChange "hello") (initial sample_clock))).2 /\
  general_request orchestrator "hello" ∈
    sent (run sample_clock (always_status 200)
       (handleSendMessage (ui (exec sample_clock (handleChange "hello")
                                 (initial sample_clock))))
       (exec sample_clock (handleChange "hello") (initial sample_clock))).2 /\
  exists target message file,
    general_request orchestrator "hello" = dispatch_request target message file.
Proof.
  assert (Hin : general_request orchestrator "hello" ∈
    sent (run sample_clock (always_status 200)
       (handleSendMessage (ui (exec sample_clock (handleChange "hello")
                                 (initial sample_clock))))
       (exec sample_clock (handleChange "hello") (initial sample_clock))).2)
    by (vm_compute; left).
  split; [exact sample_session_reachable|]. split; [exact Hin|].
  exact (proj1 (only_table_requests sample_clock _ _ sample_session_reachable Hin)).
Defined.

(** ** The response formatter *)

(** X22. The canned text of [generateAgentResponse] depends on the message
    only up to letter case and not at all on the payload, and it is never
    empty. *)
Theorem generateAgentResponse_reads_lower_case (agentId : AgentId)
    (message : string) (data other : Json) :
  generateAgentResponse agentId message data =
    generateAgentResponse agentId (toLowerCase message) other /\
  generateAgentResponse agentId message data <> "".
Proof.
  unfold generateAgentResponse. rewrite toLowerCase_idem. split; [reflexivity|].
  destruct agentId; try discriminate.
  - destruct (_ && _); [discriminate|]. destruct (_ || _); discriminate.
  - destruct (_ && _); discriminate.
Qed.
